(** * OpenHTF run data ([openhtf/io/rundata.py])

    A shallow embedding of the run-data module: the [RunData] named tuple
    with [FromFile], [SaveToFile], [AsJSON] and [IsAlive], and the
    directory scanner [EnumerateRunDirectory].

    The module is a thin layer over three pieces of the Python runtime,
    which are modelled here as far as the module uses them:
    - [json.dumps] and [json.loads] (module [Json]), on the text level;
    - [os.path.join], [os.listdir], [os.path.isfile], [open] and [os.kill]
      (module [Os]), over an explicit state of the machine;
    - exceptions, as a result type threaded by a small state-and-error
      monad.

    Python semantics are those of Python 3 on a POSIX system: a [str] is a
    sequence of code points, [IOError] is [OSError], and the errors of
    [json.loads] are [ValueError]s. *)

From Stdlib Require Import NArith ZArith List String Ascii Bool Lia.
From stdpp Require Import base option list gmap.
Import ListNotations.

(** ** Text *)

(** A Python [str]: a sequence of code points. File contents and paths are
    [str]s as well. *)
Abbreviation str := (list N).

Definition ord (c : ascii) : N := N_of_ascii c.
#[global] Arguments ord : simpl never.

(** [u "abc"] is the [str] with the characters of the literal. *)
Definition u (s : string) : str := map ord (list_ascii_of_string s).

Definition dquote : N := 34.
Definition backslash : N := 92.
Definition newline : N := 10.
Definition space : N := 32.

Fixpoint str_eqb (a b : str) : bool :=
  match a, b with
  | [], [] => true
  | x :: a', y :: b' => (x =? y)%N && str_eqb a' b'
  | _, _ => false
  end.

(** Python compares strings code point by code point. *)
Fixpoint str_leb (a b : str) : bool :=
  match a, b with
  | [], _ => true
  | _ :: _, [] => false
  | x :: a', y :: b' => if (x <? y)%N then true else if (x =? y)%N then str_leb a' b' else false
  end.

Definition startswith (s prefix : str) : bool :=
  str_eqb (take (length prefix) s) prefix.

Definition endswith (s suffix : str) : bool :=
  str_eqb (drop (length s - length suffix) s) suffix.

Fixpoint join_str (sep : str) (parts : list str) : str :=
  match parts with
  | [] => []
  | [p] => p
  | p :: ps => p ++ sep ++ join_str sep ps
  end.

(** A well-formed Unicode string holds scalar values only: code points
    below U+110000 that are not surrogates. *)
Definition is_scalar (c : N) : bool :=
  ((c <? 0xD800) || ((0xE000 <=? c) && (c <? 0x110000)))%N.

Definition scalar_str (s : str) : Prop := forallb is_scalar s = true.

(** ** Values and exceptions *)

Set Warnings "-register-all".

(** The Python values that JSON text denotes. A [dict] keeps its items in
    insertion order, with one item per key. A float is kept as the literal
    it was read from: its numeric value and its [repr] are outside the
    model, and no property below depends on them. *)
Inductive pyval : Type :=
  | PNone
  | PBool (b : bool)
  | PInt (z : Z)
  | PFloat (literal : str)
  | PStr (s : str)
  | PList (items : list pyval)
  | PDict (items : list (str * pyval)).

Inductive exn : Type :=
  | ValueError
  | TypeError
  | OverflowError
  | OSError (errno : N).

Inductive result (A : Type) : Type :=
  | Ok (a : A)
  | Raise (e : exn).
Arguments Ok {A} a.
Arguments Raise {A} e.

(** [d[k]] and [d[k] = v] on insertion-ordered dictionaries. *)
Fixpoint dict_get {V} (d : list (str * V)) (k : str) : option V :=
  match d with
  | [] => None
  | (k', v) :: d' => if str_eqb k' k then Some v else dict_get d' k
  end.

Fixpoint dict_set {V} (d : list (str * V)) (k : str) (v : V) : list (str * V) :=
  match d with
  | [] => [(k, v)]
  | (k', v') :: d' => if str_eqb k' k then (k', v) :: d' else (k', v') :: dict_set d' k v
  end.

Definition dict_keys {V} (d : list (str * V)) : list str := map fst d.

(** [dict(pairs)]: later pairs overwrite earlier ones with the same key. *)
Definition dict_of_pairs {V} (pairs : list (str * V)) : list (str * V) :=
  fold_left (fun d kv => dict_set d (fst kv) (snd kv)) pairs [].

(** ** [json] *)

Module Json.

(** *** Encoding: [json.dumps] *)

Definition hexdigit (d : N) : N :=
  (if d <? 10 then ord "0" + d else ord "a" + (d - 10))%N.

(** ['{0:04x}'.format(n)] *)
Definition hex4 (n : N) : str :=
  [hexdigit (n / 4096 mod 16); hexdigit (n / 256 mod 16);
   hexdigit (n / 16 mod 16); hexdigit (n mod 16)]%N.

Definition u_escape (n : N) : str := backslash :: ord "u" :: hex4 n.

(** The replacement that [ESCAPE_ASCII] applies to one character: the
    short escapes of [ESCAPE_DCT], [\uXXXX] for the other characters
    outside [' '..'~'], and a surrogate pair above U+FFFF. *)
Definition escape_char (c : N) : str :=
  (if c =? backslash then [backslash; backslash]
   else if c =? dquote then [backslash; dquote]
   else if c =? 8 then [backslash; ord "b"]
   else if c =? 12 then [backslash; ord "f"]
   else if c =? 10 then [backslash; ord "n"]
   else if c =? 13 then [backslash; ord "r"]
   else if c =? 9 then [backslash; ord "t"]
   else if (32 <=? c) && (c <=? 126) then [c]
   else if c <? 0x10000 then u_escape c
   else
     let n := c - 0x10000 in
     let s1 := N.lor 0xd800 (N.land (N.shiftr n 10) 0x3ff) in
     let s2 := N.lor 0xdc00 (N.land n 0x3ff) in
     u_escape s1 ++ u_escape s2)%N.

Definition escape_body (s : str) : str := flat_map escape_char s.

Definition encode_basestring_ascii (s : str) : str :=
  dquote :: escape_body s ++ [dquote].

(** Decimal digits of a natural number, most significant first. [fuel]
    bounds the number of digits. *)
Fixpoint digits_aux (fuel : nat) (n : N) (acc : str) : str :=
  match fuel with
  | O => acc
  | S fuel' =>
      let acc' := (ord "0" + n mod 10)%N :: acc in
      if (n <? 10)%N then acc' else digits_aux fuel' (n / 10)%N acc'
  end.

Definition digits (n : N) : str := digits_aux (S (N.to_nat (N.log2 n))) n [].

(** [int.__repr__] *)
Definition repr_int (z : Z) : str :=
  if (z <? 0)%Z then ord "-" :: digits (Z.abs_N z) else digits (Z.abs_N z).

(** Insertion of one item into a list of items sorted by key. *)
Fixpoint insert_item {V} (kv : str * V) (l : list (str * V)) : list (str * V) :=
  match l with
  | [] => [kv]
  | kv' :: l' => if str_leb (fst kv) (fst kv') then kv :: l else kv' :: insert_item kv l'
  end.

(** [sorted(items)] for items with distinct keys. *)
Definition sort_items {V} (l : list (str * V)) : list (str * V) :=
  fold_right insert_item [] l.

Section Encoder.
(** The arguments of [json.dumps] that the module sets. *)
Variable sort_keys : bool.
Variable indent : option nat.
Variable item_separator key_separator : str.

Definition newline_indent (level : nat) : str :=
  match indent with
  | Some n => newline :: repeat space (n * level)
  | None => []
  end.

(** [_iterencode] with its list and dict loops. The values of a dict
    are encoded before the items are sorted by key, which gives the
    same text as sorting first and keeps the recursion structural. *)
Fixpoint iterencode (o : pyval) (level : nat) : str :=
  match o with
  | PNone => u "null"
  | PBool true => u "true"
  | PBool false => u "false"
  | PInt z => repr_int z
  | PFloat literal => literal
  | PStr s => encode_basestring_ascii s
  | PList [] => u "[]"
  | PList lst =>
      u "[" ++ newline_indent (S level)
        ++ join_str (item_separator ++ newline_indent (S level))
             (map (fun value => iterencode value (S level)) lst)
        ++ newline_indent level ++ u "]"
  | PDict [] => u "{}"
  | PDict dct =>
      let encoded :=
        map (fun kv => (fst kv, iterencode (snd kv) (S level))) dct in
      let items := if sort_keys then sort_items encoded else encoded in
      u "{" ++ newline_indent (S level)
        ++ join_str (item_separator ++ newline_indent (S level))
             (map (fun kv => encode_basestring_ascii (fst kv) ++ key_separator ++ snd kv)
                  items)
        ++ newline_indent level ++ u "}"
  end.

Definition dumps (obj : pyval) : str := iterencode obj 0.
End Encoder.

(** *** Decoding: [json.loads] *)

(** The outcome of scanning a prefix of the text: a value and the text
    left after it, a syntax error, or recursion fuel used up. *)
Inductive scan (A : Type) : Type :=
  | Found (a : A) (rest : str)
  | Invalid
  | Exhausted.
Arguments Found {A} a rest.
Arguments Invalid {A}.
Arguments Exhausted {A}.

(** [WHITESPACE]: blanks, tabs, newlines and carriage returns. *)
Definition is_ws (c : N) : bool :=
  ((c =? 32) || (c =? 9) || (c =? 10) || (c =? 13))%N.

Fixpoint skip_ws (s : str) : str :=
  match s with
  | c :: rest => if is_ws c then skip_ws rest else s
  | [] => []
  end.

Definition is_digit (c : N) : bool := ((48 <=? c) && (c <=? 57))%N.

Definition hexval (c : N) : option N :=
  (if is_digit c then Some (c - 48)
   else if (97 <=? c) && (c <=? 102) then Some (c - 87)
   else if (65 <=? c) && (c <=? 70) then Some (c - 55)
   else None)%N.

(** [_decode_uXXXX]: the value of four hexadecimal digits. *)
Definition decode_uXXXX (a b c d : N) : option N :=
  match hexval a, hexval b, hexval c, hexval d with
  | Some x, Some y, Some z, Some w => Some (((x * 16 + y) * 16 + z) * 16 + w)%N
  | _, _, _, _ => None
  end.

(** [BACKSLASH]: the one-letter escapes. *)
Definition simple_escape (c : N) : option N :=
  (if c =? dquote then Some dquote
   else if c =? backslash then Some backslash
   else if c =? ord "/" then Some (ord "/")
   else if c =? ord "b" then Some 8
   else if c =? ord "f" then Some 12
   else if c =? ord "n" then Some 10
   else if c =? ord "r" then Some 13
   else if c =? ord "t" then Some 9
   else None)%N.

Definition is_high_surrogate (n : N) : bool := ((0xd800 <=? n) && (n <=? 0xdbff))%N.
Definition is_low_surrogate (n : N) : bool := ((0xdc00 <=? n) && (n <=? 0xdfff))%N.

(** [scanstring], strict: [s] starts after the opening quote, [acc] holds
    the characters read so far. The result is the string up to the closing
    quote and the text after that quote. *)
Fixpoint scanstring (s : str) (acc : str) : scan str :=
  match s with
  | [] => Invalid
  | c :: rest =>
      if (c =? dquote)%N then Found acc rest
      else if (c =? backslash)%N then
        match rest with
        | [] => Invalid
        | esc :: rest1 =>
            if (esc =? ord "u")%N then
              match rest1 with
              | h1 :: h2 :: h3 :: h4 :: rest2 =>
                  match decode_uXXXX h1 h2 h3 h4 with
                  | None => Invalid
                  | Some uni =>
                      if is_high_surrogate uni then
                        match rest2 with
                        | b :: u2 :: l1 :: l2 :: l3 :: l4 :: rest3 =>
                            if ((b =? backslash) && (u2 =? ord "u"))%N then
                              match decode_uXXXX l1 l2 l3 l4 with
                              | None => Invalid
                              | Some uni2 =>
                                  if is_low_surrogate uni2 then
                                    scanstring rest3
                                      (acc ++ [0x10000 + N.lor (N.shiftl (uni - 0xd800) 10) (uni2 - 0xdc00)])%N
                                  else scanstring rest2 (acc ++ [uni])
                              end
                            else scanstring rest2 (acc ++ [uni])
                        | _ => scanstring rest2 (acc ++ [uni])
                        end
                      else scanstring rest2 (acc ++ [uni])
                  end
              | _ => Invalid
              end
            else
              match simple_escape esc with
              | Some ch => scanstring rest1 (acc ++ [ch])
              | None => Invalid
              end
        end
      else if (c <? 32)%N then Invalid
      else scanstring rest (acc ++ [c])
  end.

(** The digits at the head of [s], and the text after them. *)
Fixpoint span_digits (s : str) : str * str :=
  match s with
  | c :: rest =>
      if is_digit c then let '(ds, r) := span_digits rest in (c :: ds, r) else ([], s)
  | [] => ([], [])
  end.

Definition digits_value (ds : str) : N :=
  fold_left (fun acc c => acc * 10 + (c - 48))%N ds 0%N.

(** The groups of [NUMBER_RE] at the head of [s]: an integer part, an
    optional fraction and an optional exponent. *)
Definition match_integer (s : str) : option (bool * str * str) :=
  let '(neg, s1) :=
    match s with
    | c :: r => if (c =? ord "-")%N then (true, r) else (false, s)
    | [] => (false, s)
    end in
  match s1 with
  | d :: r =>
      if (d =? ord "0")%N then Some (neg, [d], r)
      else if is_digit d then let '(ds, r') := span_digits r in Some (neg, d :: ds, r')
      else None
  | [] => None
  end.

Definition match_frac (s : str) : str * str :=
  match s with
  | c :: r =>
      if (c =? ord ".")%N then
        match span_digits r with
        | ([], _) => ([], s)
        | (ds, r') => (c :: ds, r')
        end
      else ([], s)
  | [] => ([], s)
  end.

Definition match_exp (s : str) : str * str :=
  match s with
  | e :: r =>
      if ((e =? ord "e") || (e =? ord "E"))%N then
        let '(sign, r1) :=
          match r with
          | c :: r' => if ((c =? ord "-") || (c =? ord "+"))%N then ([c], r') else ([], r)
          | [] => ([], r)
          end in
        match span_digits r1 with
        | ([], _) => ([], s)
        | (ds, r') => (e :: sign ++ ds, r')
        end
      else ([], s)
  | [] => ([], s)
  end.

Definition match_number (s : str) : option (pyval * str) :=
  match match_integer s with
  | None => None
  | Some (neg, integer, r) =>
      let '(frac, r1) := match_frac r in
      let '(exp, r2) := match_exp r1 in
      match frac, exp with
      | [], [] =>
          let n := Z.of_N (digits_value integer) in
          Some (PInt (if neg then - n else n)%Z, r2)
      | _, _ =>
          Some (PFloat ((if neg then [ord "-"] else []) ++ integer ++ frac ++ exp), r2)
      end
  end.

(** A constant of the grammar at the head of the text. *)
Definition literal (name : str) (v : pyval) (s : str) : option (pyval * str) :=
  if startswith s name then Some (v, drop (length name) s) else None.

(** [scan_once] with the loops of [JSONObject] and [JSONArray].
    [object_pairs] starts after the opening quote of a key and
    [array_items] at the first character of an item. *)
Fixpoint scan_once (fuel : nat) (s : str) : scan pyval :=
  match fuel with
  | O => Exhausted
  | S fuel =>
      match s with
      | [] => Invalid
      | c :: rest =>
          if (c =? dquote)%N then
            match scanstring rest [] with
            | Found k r => Found (PStr k) r
            | Invalid => Invalid
            | Exhausted => Exhausted
            end
          else if (c =? ord "{")%N then
            match skip_ws rest with
            | c1 :: rest1 =>
                if (c1 =? ord "}")%N then Found (PDict []) rest1
                else if (c1 =? dquote)%N then
                  match object_pairs fuel rest1 [] with
                  | Found pairs r => Found (PDict (dict_of_pairs pairs)) r
                  | Invalid => Invalid
                  | Exhausted => Exhausted
                  end
                else Invalid
            | [] => Invalid
            end
          else if (c =? ord "[")%N then
            match skip_ws rest with
            | c1 :: rest1 =>
                if (c1 =? ord "]")%N then Found (PList []) rest1
                else
                  match array_items fuel (c1 :: rest1) [] with
                  | Found values r => Found (PList values) r
                  | Invalid => Invalid
                  | Exhausted => Exhausted
                  end
            | [] => Invalid
            end
          else
            match literal (u "null") PNone s,
                  literal (u "true") (PBool true) s,
                  literal (u "false") (PBool false) s,
                  match_number s,
                  literal (u "NaN") (PFloat (u "NaN")) s,
                  literal (u "Infinity") (PFloat (u "Infinity")) s,
                  literal (u "-Infinity") (PFloat (u "-Infinity")) s with
            | Some (v, r), _, _, _, _, _, _
            | None, Some (v, r), _, _, _, _, _
            | None, None, Some (v, r), _, _, _, _
            | None, None, None, Some (v, r), _, _, _
            | None, None, None, None, Some (v, r), _, _
            | None, None, None, None, None, Some (v, r), _
            | None, None, None, None, None, None, Some (v, r) => Found v r
            | None, None, None, None, None, None, None => Invalid
            end
      end
  end
with object_pairs (fuel : nat) (s : str) (pairs : list (str * pyval)) : scan (list (str * pyval)) :=
  match fuel with
  | O => Exhausted
  | S fuel =>
      match scanstring s [] with
      | Found key s1 =>
          match skip_ws s1 with
          | c :: s2 =>
              if (c =? ord ":")%N then
                match scan_once fuel (skip_ws s2) with
                | Found value s3 =>
                    match skip_ws s3 with
                    | c' :: s4 =>
                        if (c' =? ord "}")%N then Found (pairs ++ [(key, value)]) s4
                        else if (c' =? ord ",")%N then
                          match skip_ws s4 with
                          | q :: s5 =>
                              if (q =? dquote)%N
                              then object_pairs fuel s5 (pairs ++ [(key, value)])
                              else Invalid
                          | [] => Invalid
                          end
                        else Invalid
                    | [] => Invalid
                    end
                | Invalid => Invalid
                | Exhausted => Exhausted
                end
              else Invalid
          | [] => Invalid
          end
      | Invalid => Invalid
      | Exhausted => Exhausted
      end
  end
with array_items (fuel : nat) (s : str) (values : list pyval) : scan (list pyval) :=
  match fuel with
  | O => Exhausted
  | S fuel =>
      match scan_once fuel s with
      | Found value s1 =>
          match skip_ws s1 with
          | c :: s2 =>
              if (c =? ord "]")%N then Found (values ++ [value]) s2
              else if (c =? ord ",")%N then array_items fuel (skip_ws s2) (values ++ [value])
              else Invalid
          | [] => Invalid
          end
      | Invalid => Invalid
      | Exhausted => Exhausted
      end
  end.

(** [JSONDecoder.decode]: one value between optional whitespace, and
    nothing after it. Every call of the scanner consumes a character
    before it recurses, so twice the length of the text bounds the
    recursion: [Exhausted] does not occur (lemma [JsonFuel.loads_fuel]
    below). *)
Definition loads (s : str) : result pyval :=
  let s0 := skip_ws s in
  match scan_once (S (2 * length s0)) s0 with
  | Found obj rest =>
      match skip_ws rest with
      | [] => Ok obj
      | _ :: _ => Raise ValueError
      end
  | Invalid => Raise ValueError
  | Exhausted => Raise ValueError
  end.

End Json.

(** ** The operating system *)

Module Os.

(** A file system is a finite map from locations to nodes; a location is
    the list of the names on the way from the root. A directory holds the
    names of its entries in the order in which a listing yields them.
    Only regular files and directories are modelled; the model knows no
    permissions, no symbolic links and does not interpret [..]. *)
Inductive node : Type :=
  | File (content : str)
  | Dir (entries : list str).

(** The state of the machine as the module sees it: the file system, the
    working directory, and the answer of [kill(2)] for each process id and
    signal ([None] when the call succeeds, else the error number). *)
Record state : Type := State {
  nodes : gmap (list str) node;
  cwd : list str;
  kill_errno : Z -> Z -> option N
}.

Definition EPERM : N := 1.
Definition ENOENT : N := 2.
Definition ESRCH : N := 3.
Definition ENOTDIR : N := 20.
Definition EISDIR : N := 21.

(** Computations that read and change the state and may raise. *)
Definition io (A : Type) : Type := state -> result A * state.

Definition ret {A} (a : A) : io A := fun st => (Ok a, st).
Definition raise {A} (e : exn) : io A := fun st => (Raise e, st).
Definition bind {A B} (m : io A) (k : A -> io B) : io B :=
  fun st =>
    match m st with
    | (Ok a, st') => k a st'
    | (Raise e, st') => (Raise e, st')
    end.
Definition lift {A} (r : result A) : io A := fun st => (r, st).

(** [try: body / except <handled>: handler / else: orelse] *)
Definition try_except_else {A B} (body : io A) (handled : exn -> bool)
    (handler : io B) (orelse : io B) : io B :=
  fun st =>
    match body st with
    | (Ok _, st') => orelse st'
    | (Raise e, st') => if handled e then handler st' else (Raise e, st')
    end.

Definition sep : N := ord "/".

(** [os.path.join(a, b)] of [posixpath]. *)
Definition path_join (a b : str) : str :=
  if startswith b [sep] then b
  else if str_eqb a [] || endswith a [sep] then a ++ b
  else a ++ sep :: b.

(** The names between the slashes of a path. *)
Fixpoint components (p : str) (cur : str) : list str :=
  match p with
  | [] => [cur]
  | c :: rest => if (c =? sep)%N then cur :: components rest [] else components rest (cur ++ [c])
  end.

Definition is_name (c : str) : bool := negb (str_eqb c [] || str_eqb c (u ".")).

(** The location that a path names: from the root when the path starts
    with a slash, from the working directory otherwise. Empty names and
    [.] are skipped; the empty path names nothing. *)
Definition locate (st : state) (p : str) : option (list str) :=
  if str_eqb p [] then None
  else Some ((if startswith p [sep] then [] else cwd st) ++ List.filter is_name (components p [])).

(** The node at a path; a path that ends in a slash names directories
    only. *)
Definition node_at (st : state) (p : str) : option node :=
  match locate st p with
  | None => None
  | Some k =>
      match nodes st !! k with
      | Some (File content) => if endswith p [sep] then None else Some (File content)
      | other => other
      end
  end.

(** [os.listdir(path)] *)
Definition listdir (path : str) : io (list str) := fun st =>
  match node_at st path with
  | Some (Dir entries) => (Ok entries, st)
  | Some (File _) => (Raise (OSError ENOTDIR), st)
  | None => (Raise (OSError ENOENT), st)
  end.

(** [os.path.isfile(path)] *)
Definition isfile (path : str) : io bool := fun st =>
  match node_at st path with
  | Some (File _) => (Ok true, st)
  | _ => (Ok false, st)
  end.

(** [open(filename).read()] *)
Definition read_text (filename : str) : io str := fun st =>
  match node_at st filename with
  | Some (File content) => (Ok content, st)
  | Some (Dir _) => (Raise (OSError EISDIR), st)
  | None => (Raise (OSError ENOENT), st)
  end.

Definition set_nodes (st : state) (m : gmap (list str) node) : state :=
  {| nodes := m; cwd := cwd st; kill_errno := kill_errno st |}.

(** [open(filename, 'w')]: an existing file is emptied, a missing one is
    created in its directory, which must exist. The result stands for the
    open file. The place of a new name in the listing of its directory is
    up to the file system; the model puts it last. *)
Definition open_w (filename : str) : io (list str) := fun st =>
  match locate st filename with
  | None => (Raise (OSError ENOENT), st)
  | Some k =>
      match nodes st !! k with
      | Some (Dir _) => (Raise (OSError EISDIR), st)
      | Some (File _) =>
          if endswith filename [sep] then (Raise (OSError ENOTDIR), st)
          else (Ok k, set_nodes st (<[k := File []]> (nodes st)))
      | None =>
          if endswith filename [sep] then (Raise (OSError EISDIR), st)
          else
            match nodes st !! removelast k, last k with
            | Some (Dir entries), Some name =>
                (Ok k, set_nodes st (<[k := File []]>
                                       (<[removelast k := Dir (entries ++ [name])]> (nodes st))))
            | Some (File _), _ => (Raise (OSError ENOTDIR), st)
            | _, _ => (Raise (OSError ENOENT), st)
            end
      end
  end.

(** [runfile.write(text)] on a file opened for writing. *)
Definition write (runfile : list str) (text : str) : io unit := fun st =>
  match nodes st !! runfile with
  | Some (File content) => (Ok tt, set_nodes st (<[runfile := File (content ++ text)]> (nodes st)))
  | _ => (Raise (OSError ENOENT), st)
  end.

(** The process ids that fit the C type [pid_t]. *)
Definition fits_pid_t (p : Z) : bool := ((- 2 ^ 31 <=? p) && (p <? 2 ^ 31))%Z.

(** [os.kill(pid, sig)] as far as the probe with signal 0 needs it: the
    argument must be an integer that fits [pid_t], and the call raises
    [OSError] when [kill(2)] fails. Signal 0 delivers nothing, so the
    state stays as it is. *)
Definition kill (pid : pyval) (sig : Z) : io unit := fun st =>
  match pid with
  | PInt p =>
      if fits_pid_t p then
        match kill_errno st p sig with
        | None => (Ok tt, st)
        | Some errno => (Raise (OSError errno), st)
        end
      else (Raise OverflowError, st)
  | PBool b =>
      match kill_errno st (if b then 1 else 0)%Z sig with
      | None => (Ok tt, st)
      | Some errno => (Raise (OSError errno), st)
      end
  | _ => (Raise TypeError, st)
  end.

End Os.

#[global] Instance io_ret : MRet Os.io := @Os.ret.
#[global] Instance io_bind : MBind Os.io := fun A B k m => Os.bind m k.

(** ** The module [rundata] *)

(** [class RunData(collections.namedtuple('RunData', [...]))]: a tuple of
    five Python values. The named tuple does not look at the types of its
    fields. *)
Record RunData : Type := mkRunData {
  station_id : pyval;
  script_name : pyval;
  http_host : pyval;
  http_port : pyval;
  pid : pyval
}.

Definition _fields : list str :=
  [u "station_id"; u "script_name"; u "http_host"; u "http_port"; u "pid"].

(** The call of [cls] with the items of [decoded] as keyword arguments:
    [decoded] must be a mapping, each of its keys must name a field, and
    each field must get a value. *)
Definition RunData_new (decoded : pyval) : result RunData :=
  match decoded with
  | PDict kwargs =>
      if forallb (fun k => existsb (str_eqb k) _fields) (dict_keys kwargs) then
        match dict_get kwargs (u "station_id"), dict_get kwargs (u "script_name"),
              dict_get kwargs (u "http_host"), dict_get kwargs (u "http_port"),
              dict_get kwargs (u "pid") with
        | Some a, Some b, Some c, Some d, Some e => Ok (mkRunData a b c d e)
        | _, _, _, _, _ => Raise TypeError
        end
      else Raise TypeError
  | _ => Raise TypeError
  end.

Definition FromFile (filename : str) : Os.io RunData :=
  data ← Os.read_text filename;
  decoded ← Os.lift (Json.loads data);
  Os.lift (RunData_new decoded).

Definition _asdict (self : RunData) : list (str * pyval) :=
  [(u "station_id", station_id self); (u "script_name", script_name self);
   (u "http_host", http_host self); (u "http_port", http_port self);
   (u "pid", pid self)].

Definition AsJSON (self : RunData) : str :=
  let data := _asdict self in
  let data := dict_set data (u "http_host") (http_host self) in
  Json.dumps true (Some 4) (u ",") (u ": ") (PDict data).

(** [os.path.join(directory, self.station_id)] raises [TypeError] unless
    the station id is a string. *)
Definition SaveToFile (self : RunData) (directory : str) : Os.io str :=
  filename ← match station_id self with
              | PStr name => Os.ret (Os.path_join directory name)
              | _ => Os.raise TypeError
              end;
  runfile ← Os.open_w filename;
  Os.write runfile (AsJSON self);;
  Os.ret filename.

Definition is_OSError (e : exn) : bool :=
  match e with OSError _ => true | _ => false end.

Definition IsAlive (self : RunData) : Os.io bool :=
  Os.try_except_else (Os.kill (pid self) 0) is_OSError (Os.ret false) (Os.ret true).

(** [[RunData.FromFile(filepath) for filepath in filepaths
      if os.path.isfile(filepath)]] *)
Fixpoint from_files (filepaths : list str) : Os.io (list RunData) :=
  match filepaths with
  | [] => Os.ret []
  | filepath :: rest =>
      regular ← Os.isfile filepath;
      if (regular : bool) then
        record ← FromFile filepath;
        records ← from_files rest;
        Os.ret (record :: records)
      else from_files rest
  end.

Definition EnumerateRunDirectory (directory : str) : Os.io (list RunData) :=
  filenames ← Os.listdir directory;
  let filepaths := map (Os.path_join directory) filenames in
  result ← from_files filepaths;
  Os.ret result.

(** ** The text that [AsJSON] writes *)

(** The text of one [key: value] item followed by [tail]. *)
Definition member (key vtext tail : str) : str :=
  Json.escape_body key ++ dquote :: ord ":" :: space :: vtext ++ tail.

Definition nl_indent : str := newline :: u "    ".

(** The encoding of a field value, one level deep. *)
Definition encode_field (v : pyval) : str :=
  Json.iterencode true (Some 4) (u ",") (u ": ") v 1.

(** ** The documented file format *)

(** The layout that the description of the format gives: one item per
    line, indented by four spaces, the key in double quotes, a colon and a
    space before the value, a comma right before the line break between
    two items, and the braces on lines of their own. *)
Definition quoted (s : str) : str := dquote :: s ++ [dquote].

Definition item_line (kv : str * str) : str :=
  u "    " ++ quoted (fst kv) ++ u ": " ++ snd kv.

Definition object_layout (items : list (str * str)) : str :=
  u "{" ++ [newline] ++ join_str (u "," ++ [newline]) (map item_line items)
    ++ [newline] ++ u "}".

(** Keys in strictly ascending order. *)
Fixpoint ascending (keys : list str) : bool :=
  match keys with
  | k1 :: rest =>
      match rest with
      | k2 :: _ => str_leb k1 k2 && negb (str_eqb k1 k2) && ascending rest
      | [] => true
      end
  | [] => true
  end.

(** ** What a scan of a directory amounts to *)

Definition is_regular (st : Os.state) (path : str) : bool :=
  match Os.node_at st path with
  | Some (Os.File _) => true
  | _ => false
  end.

(** The records read from a list of files, in the order of the list; the
    first file that cannot be read decides the error. *)
Fixpoint decode_all (st : Os.state) (paths : list str) : result (list RunData) :=
  match paths with
  | [] => Ok []
  | path :: rest =>
      match fst (FromFile path st) with
      | Ok record =>
          match decode_all st rest with
          | Ok records => Ok (record :: records)
          | Raise e => Raise e
          end
      | Raise e => Raise e
      end
  end.

(** ** Predicates of the proofs *)

(** What the printed digits of a number look like to the scanner. *)
Record decimal (n : N) (ds : str) : Prop := {
  decimal_digits : Forall (fun c => Json.is_digit c = true) ds;
  decimal_value : Json.digits_value ds = n;
  decimal_head : match ds with
                 | [] => False
                 | d :: ds' => d = ord "0" -> n = 0%N /\ ds' = []
                 end
}.

(** The text after a number must not continue it. *)
Definition ends_number (rest : str) : Prop :=
  match rest with
  | [] => True
  | c :: _ => Json.is_digit c = false /\ c <> ord "." /\ c <> ord "e" /\ c <> ord "E"
  end.

(** A scan that ends has consumed some text; [Exhausted] counts as not
    ending. *)
Definition progress {A} (r : Json.scan A) (s : str) : Prop :=
  match r with
  | Json.Found _ rest => length rest < length s
  | Json.Invalid => True
  | Json.Exhausted => False
  end.

(** ** Examples *)

(** JSON text for the examples, written with an apostrophe for each
    double quote. *)
Definition jtext (s : string) : str :=
  map (fun c => if (c =? ord "'")%N then dquote else c) (u s).

Definition station_A : RunData :=
  mkRunData (PStr (u "station-A")) (PStr (u "script1.py")) (PStr (u "localhost"))
            (PInt 8080) (PInt 4242).

Definition station_B : RunData :=
  mkRunData (PStr (u "station-B")) (PStr (u "b.py")) (PStr (u "localhost"))
            (PInt 8081) (PInt 1).

(** [station_A] after a restart, with a new process id. *)
Definition station_A_restarted : RunData :=
  mkRunData (PStr (u "station-A")) (PStr (u "script1.py")) (PStr (u "localhost"))
            (PInt 8080) (PInt 5151).

(** The object in the file [/run/loose] of [run_machine]: the port and
    the process id are strings. *)
Definition loose_items : list (str * pyval) :=
  [(u "station_id", PStr (u "station-L")); (u "script_name", PStr (u "l.py"));
   (u "http_host", PStr (u "localhost")); (u "http_port", PStr (u "eighty"));
   (u "pid", PStr (u "4242"))].

(** A machine whose run directory [/run] holds the run file of
    [station_A], six other files and a subdirectory [old], and on which only
    process 4242 can be signalled: process 1 belongs to another user and
    no other process exists. *)
Definition run_machine : Os.state :=
  {| Os.nodes := list_to_map
       [([], Os.Dir [u "run"]);
        ([u "run"], Os.Dir [u "old"; u "station-A"; u "truncated"; u "no-pid";
                            u "extra"; u "list"; u "loose"; u "station-B"]);
        ([u "run"; u "old"], Os.Dir [u "garbage"]);
        ([u "run"; u "old"; u "garbage"], Os.File (jtext "{'station_id': "));
        ([u "run"; u "station-A"], Os.File (AsJSON station_A));
        ([u "run"; u "truncated"], Os.File (jtext "{'station_id': 'station-T', 'pid'"));
        ([u "run"; u "no-pid"],
           Os.File (jtext "{'station_id': 's', 'script_name': 'x', 'http_host': 'h', 'http_port': 1}"));
        ([u "run"; u "extra"],
           Os.File (jtext "{'station_id': 's', 'script_name': 'x', 'http_host': 'h', 'http_port': 1, 'pid': 2, 'user': 'u'}"));
        ([u "run"; u "list"], Os.File (jtext "['station-A', 'script1.py', 'localhost', 8080, 4242]"));
        ([u "run"; u "loose"],
           Os.File (jtext "{'station_id': 'station-L', 'script_name': 'l.py', 'http_host': 'localhost', 'http_port': 'eighty', 'pid': '4242'}"));
        ([u "run"; u "station-B"],
           Os.File (jtext "{'pid': 1, 'http_port': 8081, 'station_id': 'station-B', 'http_host': 'localhost', 'script_name': 'b.py'}"))];
     Os.cwd := [];
     Os.kill_errno := fun p _ =>
       if (p =? 4242)%Z then None
       else if (p =? 1)%Z then Some Os.EPERM
       else Some Os.ESRCH |}.

(** A tidy run directory [/var/run/openhtf], with two run files and one
    subdirectory, and a directory [/var/run/solo] with one subdirectory
    and one run file. The subdirectories hold files that are not JSON. *)
Definition tidy_machine : Os.state :=
  {| Os.nodes := list_to_map
       [([], Os.Dir [u "var"]);
        ([u "var"], Os.Dir [u "run"]);
        ([u "var"; u "run"], Os.Dir [u "openhtf"; u "solo"]);
        ([u "var"; u "run"; u "solo"], Os.Dir [u "nested"; u "station-A"]);
        ([u "var"; u "run"; u "solo"; u "nested"], Os.Dir [u "junk"]);
        ([u "var"; u "run"; u "solo"; u "nested"; u "junk"], Os.File (jtext "{'pid': "));
        ([u "var"; u "run"; u "solo"; u "station-A"], Os.File (AsJSON station_A));
        ([u "var"; u "run"; u "openhtf"], Os.Dir [u "station-B"; u "archive"; u "station-A"]);
        ([u "var"; u "run"; u "openhtf"; u "archive"], Os.Dir [u "station-Z"]);
        ([u "var"; u "run"; u "openhtf"; u "archive"; u "station-Z"], Os.File (jtext "not json"));
        ([u "var"; u "run"; u "openhtf"; u "station-A"], Os.File (AsJSON station_A));
        ([u "var"; u "run"; u "openhtf"; u "station-B"], Os.File (AsJSON station_B))];
     Os.cwd := [];
     Os.kill_errno := fun p _ => if (p =? 4242)%Z then None else Some Os.ESRCH |}.

(** A machine with an empty run directory. *)
Definition fresh_machine : Os.state :=
  {| Os.nodes := list_to_map
       [([], Os.Dir [u "var"]);
        ([u "var"], Os.Dir [u "run"]);
        ([u "var"; u "run"], Os.Dir [u "openhtf"]);
        ([u "var"; u "run"; u "openhtf"], Os.Dir [])];
     Os.cwd := [];
     Os.kill_errno := fun p _ => if (p =? 4242)%Z then None else Some Os.ESRCH |}.

(** ** More predicates and examples *)

(** A record with the documented field types: three strings of Unicode
    scalar values and two integers. *)
Definition typed_record (self : RunData) : bool :=
  match station_id self, script_name self, http_host self, http_port self, pid self with
  | PStr sid, PStr sn, PStr hh, PInt _, PInt _ =>
      forallb is_scalar sid && forallb is_scalar sn && forallb is_scalar hh
  | _, _, _, _, _ => false
  end.

(** Printable ASCII, and the characters of a plain text file. *)
Definition printable (c : N) : bool := ((32 <=? c) && (c <=? 126))%N.
Definition plain (c : N) : bool := (c =? newline)%N || printable c.

(** The number of line breaks in a text. *)
Definition line_breaks (s : str) : nat := length (List.filter (fun c => (c =? newline)%N) s).


(** A record whose station id is an absolute path. *)
Definition rooted_station : RunData :=
  mkRunData (PStr (u "/run/station-A")) (PStr (u "x.py")) (PStr (u "localhost"))
            (PInt 80) (PInt 7).

(** A record as [FromFile] reads it from the file [/run/loose]. *)
Definition loose_station : RunData :=
  mkRunData (PStr (u "station-L")) (PStr (u "l.py")) (PStr (u "localhost"))
            (PStr (u "eighty")) (PStr (u "4242")).

(** A record whose process id does not fit [pid_t]. *)
Definition far_station : RunData :=
  mkRunData (PStr (u "station-F")) (PStr (u "f.py")) (PStr (u "localhost"))
            (PInt 8080) (PInt (2 ^ 31)).


(** * Properties *)

(** ** The [json] model *)

Module JsonFacts.
Import Json.

(** Quotient and remainder of [n] by [d], as facts for [lia]. *)
Ltac divmod n d :=
  pose proof (N.div_mod' n d); pose proof (N.mod_lt n d ltac:(done));
  let q := fresh "q" in let r := fresh "r" in
  set (q := (n / d)%N) in *; set (r := (n mod d)%N) in *; clearbody q r.

Lemma str_eqb_eq (a b : str) : str_eqb a b = true <-> a = b.
Proof.
  revert b; induction a as [|x a IH]; intros [|y b]; simpl; split; try congruence.
  - intros [Hx Hab]%andb_true_iff. apply N.eqb_eq in Hx. apply IH in Hab. congruence.
  - intros [= -> ->]. rewrite N.eqb_refl. simpl. by apply IH.
Qed.

Lemma str_eqb_refl (a : str) : str_eqb a a = true.
Proof. by apply str_eqb_eq. Qed.

Lemma digits_value_snoc (ds : str) (c : N) :
  digits_value (ds ++ [c]) = (digits_value ds * 10 + (c - 48))%N.
Proof. unfold digits_value. by rewrite fold_left_app. Qed.

Lemma digits_aux_acc (fuel : nat) (n : N) (acc : str) :
  digits_aux fuel n acc = digits_aux fuel n [] ++ acc.
Proof.
  revert n acc; induction fuel as [|fuel IH]; intros n acc; simpl; [done|].
  destruct (n <? 10)%N; [done|].
  rewrite IH, (IH _ [_]), <- app_assoc. done.
Qed.

Lemma digits_aux_S (fuel : nat) (n : N) (acc : str) :
  digits_aux (S fuel) n acc =
  if (n <? 10)%N then (48 + n mod 10)%N :: acc
  else digits_aux fuel (n / 10)%N ((48 + n mod 10)%N :: acc).
Proof. done. Qed.

Lemma is_digit_spec (c : N) : is_digit c = true <-> (48 <= c <= 57)%N.
Proof. unfold is_digit. rewrite andb_true_iff, !N.leb_le. done. Qed.

Lemma digits_aux_decimal (fuel : nat) (n : N) :
  (n < 2 ^ N.of_nat (S fuel))%N -> decimal n (digits_aux (S fuel) n []).
Proof.
  revert n; induction fuel as [|fuel IH]; intros n Hn.
  - change (2 ^ N.of_nat 1)%N with 2%N in Hn.
    assert (n = 0 \/ n = 1)%N as [-> | ->] by lia; split; try done; repeat constructor; done.
  - rewrite digits_aux_S.
    destruct (N.ltb_spec n 10) as [Hlt|Hge].
    + rewrite N.mod_small by done. split.
      * constructor; [|constructor]. apply is_digit_spec. lia.
      * unfold digits_value. cbn [fold_left]. lia.
      * intros H. change (ord "0") with 48%N in H. split; [lia|done].
    + rewrite digits_aux_acc.
      assert (n / 10 < 2 ^ N.of_nat (S fuel))%N as Hsmall.
      { rewrite (Nat2N.inj_succ (S fuel)), N.pow_succ_r' in Hn.
        apply N.Div0.div_lt_upper_bound.
        revert Hn. generalize (2 ^ N.of_nat (S fuel))%N. lia. }
      destruct (IH _ Hsmall) as [Hd Hv Hh]. split.
      * apply Forall_app; split; [done|]. constructor; [|constructor].
        apply is_digit_spec. divmod n 10%N. lia.
      * rewrite digits_value_snoc, Hv. divmod n 10%N. lia.
      * destruct (digits_aux (S fuel) (n / 10) []) as [|d ds']; [done|].
        cbn [app]. intros Hz. destruct (Hh Hz) as [Hq _]. divmod n 10%N. lia.
Qed.

Lemma digits_decimal (n : N) : decimal n (digits n).
Proof.
  apply digits_aux_decimal.
  rewrite Nat2N.inj_succ, N2Nat.id.
  destruct n as [|p]; [done|]. apply N.log2_spec. lia.
Qed.

Lemma span_digits_app (ds rest : str) :
  Forall (fun c => is_digit c = true) ds ->
  match rest with [] => True | c :: _ => is_digit c = false end ->
  span_digits (ds ++ rest) = (ds, rest).
Proof.
  intros Hds Hrest. induction Hds as [|d ds Hd _ IH]; simpl.
  - destruct rest as [|c rest]; [done|]. simpl. by rewrite Hrest.
  - by rewrite Hd, IH.
Qed.

Lemma match_number_repr_int (z : Z) (rest : str) :
  ends_number rest -> match_number (repr_int z ++ rest) = Some (PInt z, rest).
Proof.
  intros Hrest.
  assert (match_frac rest = ([], rest)) as Hfrac.
  { destruct rest as [|c rest]; [done|]. unfold match_frac.
    destruct Hrest as (_ & Hdot & _). by apply N.eqb_neq in Hdot as ->. }
  assert (match_exp rest = ([], rest)) as Hexp.
  { destruct rest as [|c rest]; [done|]. unfold match_exp.
    destruct Hrest as (_ & _ & He1 & He2).
    apply N.eqb_neq in He1 as ->. by apply N.eqb_neq in He2 as ->. }
  assert (match rest with [] => True | c :: _ => is_digit c = false end) as Hnd.
  { destruct rest; [done|]. apply Hrest. }
  destruct (digits_decimal (Z.abs_N z)) as [Hd Hv Hh].
  assert (forall neg, (neg = true -> Z.abs_N z <> 0%N) ->
            match_number ((if neg then [ord "-"] else []) ++ digits (Z.abs_N z) ++ rest)
            = Some (PInt (if neg then - Z.of_N (Z.abs_N z) else Z.of_N (Z.abs_N z))%Z, rest)) as Hgen.
  { intros neg Hneg. unfold match_number, match_integer.
    destruct (digits (Z.abs_N z)) as [|d ds] eqn:Hdig; [done|].
    apply Forall_cons in Hd as [Hd0 Hds].
    assert ((d =? ord "-")%N = false) as Hminus.
    { apply N.eqb_neq. intros ->. done. }
    assert (match (if neg then [ord "-"] else []) ++ (d :: ds) ++ rest with
            | c :: r => if (c =? ord "-")%N then (true, r) else (false, (if neg then [ord "-"] else []) ++ (d :: ds) ++ rest)
            | [] => (false, (if neg then [ord "-"] else []) ++ (d :: ds) ++ rest)
            end = (neg, (d :: ds) ++ rest)) as ->.
    { destruct neg; simpl; [done|]. by rewrite Hminus. }
    simpl. destruct (N.eqb_spec d (ord "0")) as [Hz|Hnz].
    - destruct (Hh Hz) as [Hn ->]. simpl. rewrite Hfrac, Hexp.
      rewrite <- Hv. subst d. simpl. destruct neg; [|done].
      exfalso. by apply Hneg.
    - rewrite Hd0, (span_digits_app ds rest Hds Hnd), Hfrac, Hexp. by rewrite Hv. }
  unfold repr_int. destruct (Z.ltb_spec z 0) as [Hneg|Hpos].
  - etrans; [apply (Hgen true); lia|]. do 3 f_equal. lia.
  - etrans; [apply (Hgen false); done|]. do 3 f_equal. lia.
Qed.


(** *** Strings *)

Lemma hexval_hexdigit (d : N) : (d < 16)%N -> hexval (hexdigit d) = Some d.
Proof.
  intros Hd. destruct d as [|p]; [done|].
  do 4 (destruct p as [p|p|]; try done); lia.
Qed.

Lemma decode_hex4 (n : N) :
  (n < 65536)%N ->
  match hex4 n with
  | [a; b; c; d] => decode_uXXXX a b c d = Some n
  | _ => False
  end.
Proof.
  intros Hn. unfold hex4, decode_uXXXX.
  replace (n / 4096)%N with (n / 16 / 16 / 16)%N by (by rewrite !N.Div0.div_div).
  replace (n / 256)%N with (n / 16 / 16)%N by (by rewrite !N.Div0.div_div).
  divmod n 16%N. divmod q 16%N. divmod q0 16%N. divmod q1 16%N.
  rewrite !hexval_hexdigit by lia. f_equal. lia.
Qed.

Lemma lor_high_low (hi lo : N) :
  (lo < 2 ^ 10)%N -> N.lor (hi * 2 ^ 10) lo = (hi * 2 ^ 10 + lo)%N.
Proof.
  intros Hlo.
  assert (N.land (hi * 2 ^ 10) lo = 0%N) as Hdisjoint.
  { apply N.bits_inj_0. intros i. rewrite N.land_spec.
    destruct (N.lt_ge_cases i 10) as [Hi|Hi].
    - by rewrite N.mul_pow2_bits_low.
    - assert (N.testbit lo i = false) as ->; [|by rewrite andb_false_r].
      destruct lo as [|p]; [apply N.bits_0|].
      apply N.bits_above_log2, N.log2_lt_pow2; [done|].
      eapply N.lt_le_trans; [done|]. by apply N.pow_le_mono_r. }
  rewrite N.add_nocarry_lxor by done. by rewrite N.lxor_lor.
Qed.

(** The two halves of a surrogate pair, as the encoder computes them. *)
Lemma surrogates_of (c : N) :
  (0x10000 <= c < 0x110000)%N ->
  N.lor 0xd800 (N.land (N.shiftr (c - 0x10000) 10) 0x3ff) = (0xd800 + (c - 0x10000) / 1024)%N /\
  N.lor 0xdc00 (N.land (c - 0x10000) 0x3ff) = (0xdc00 + (c - 0x10000) mod 1024)%N /\
  ((c - 0x10000) / 1024 < 1024)%N.
Proof.
  intros Hc. set (n := (c - 0x10000)%N).
  assert (n / 1024 < 1024)%N as Hhi by (apply N.Div0.div_lt_upper_bound; lia).
  change 0x3ff%N with (N.ones 10). rewrite !N.land_ones, N.shiftr_div_pow2.
  change (2 ^ 10)%N with 1024%N. rewrite (N.mod_small (n / 1024)) by done.
  change 0xd800%N with (54 * 2 ^ 10)%N. change 0xdc00%N with (55 * 2 ^ 10)%N.
  rewrite !lor_high_low; [done|..].
  - apply N.mod_lt. done.
  - done.
Qed.

Lemma scalar_str_Forall (s : str) :
  scalar_str s <-> Forall (fun c => is_scalar c = true) s.
Proof.
  unfold scalar_str. rewrite forallb_forall, Forall_forall.
  split; intros H c Hc; apply H; by apply list_elem_of_In.
Qed.

#[local] Arguments decode_uXXXX : simpl never.
#[local] Arguments is_high_surrogate : simpl never.
#[local] Arguments is_low_surrogate : simpl never.

Lemma scanstring_u (a b c d uni : N) (rest acc : str) :
  decode_uXXXX a b c d = Some uni -> is_high_surrogate uni = false ->
  scanstring (backslash :: ord "u" :: a :: b :: c :: d :: rest) acc
  = scanstring rest (acc ++ [uni]).
Proof. intros Hdec Hhigh. simpl. rewrite Hdec, Hhigh. done. Qed.

Lemma scanstring_pair (a b c d a' b' c' d' hi lo : N) (rest acc : str) :
  decode_uXXXX a b c d = Some hi -> is_high_surrogate hi = true ->
  decode_uXXXX a' b' c' d' = Some lo -> is_low_surrogate lo = true ->
  scanstring (backslash :: ord "u" :: a :: b :: c :: d
                :: backslash :: ord "u" :: a' :: b' :: c' :: d' :: rest) acc
  = scanstring rest (acc ++ [0x10000 + N.lor (N.shiftl (hi - 0xd800) 10) (lo - 0xdc00)])%N.
Proof. intros Hhi Hhigh Hlo Hlow. simpl. rewrite Hhi, Hhigh, Hlo, Hlow. done. Qed.

Lemma scanstring_plain (c : N) (rest acc : str) :
  c <> dquote -> c <> backslash -> (32 <= c)%N ->
  scanstring (c :: rest) acc = scanstring rest (acc ++ [c]).
Proof.
  intros Hq Hb Hc. simpl.
  apply N.eqb_neq in Hq as ->. apply N.eqb_neq in Hb as ->.
  by apply N.ltb_ge in Hc as ->.
Qed.

Lemma scanstring_escape_char (c : N) (rest acc : str) :
  is_scalar c = true ->
  scanstring (escape_char c ++ rest) acc = scanstring rest (acc ++ [c]).
Proof.
  intros Hc. unfold escape_char.
  repeat match goal with
         | |- context [(c =? ?k)%N] => destruct (N.eqb_spec c k) as [->|?]; [done|]
         end.
  destruct ((32 <=? c)%N && (c <=? 126)%N) eqn:Hprint.
  { apply andb_true_iff in Hprint as [H1%N.leb_le _]. by apply scanstring_plain. }
  unfold is_scalar in Hc.
  destruct (N.ltb_spec c 0x10000) as [Hbmp|Hastral].
  - pose proof (decode_hex4 c Hbmp) as Hdec. unfold u_escape.
    destruct (hex4 c) as [|h1 [|h2 [|h3 [|h4 [|]]]]]; try done.
    apply scanstring_u; [done|].
    unfold is_high_surrogate. apply andb_false_iff.
    apply orb_true_iff in Hc as [H%N.ltb_lt | [H%N.leb_le _]%andb_true_iff].
    + left. apply N.leb_gt. lia.
    + right. apply N.leb_gt. lia.
  - assert (0x10000 <= c < 0x110000)%N as Hrange.
    { split; [done|]. apply orb_true_iff in Hc as [H%N.ltb_lt | [_ H%N.ltb_lt]%andb_true_iff]; lia. }
    cbv zeta. destruct (surrogates_of c Hrange) as (-> & -> & Hhi).
    set (m := (c - 0x10000)%N) in *. divmod m 1024%N.
    pose proof (decode_hex4 (0xd800 + q) ltac:(lia)) as Hdec1.
    pose proof (decode_hex4 (0xdc00 + r) ltac:(lia)) as Hdec2.
    unfold u_escape.
    destruct (hex4 (0xd800 + q)) as [|h1 [|h2 [|h3 [|h4 [|]]]]]; try done.
    destruct (hex4 (0xdc00 + r)) as [|l1 [|l2 [|l3 [|l4 [|]]]]]; try done.
    cbn [app]. erewrite scanstring_pair; [|done| |done|].
    + do 3 f_equal. rewrite N.shiftl_mul_pow2, lor_high_low by lia.
      change (2 ^ 10)%N with 1024%N. lia.
    + unfold is_high_surrogate. apply andb_true_iff. split; apply N.leb_le; lia.
    + unfold is_low_surrogate. apply andb_true_iff. split; apply N.leb_le; lia.
Qed.

Lemma scanstring_escape_body (s rest acc : str) :
  scalar_str s ->
  scanstring (escape_body s ++ dquote :: rest) acc = Found (acc ++ s) rest.
Proof.
  intros Hs%scalar_str_Forall. revert acc. induction Hs as [|c s Hc _ IH]; intros acc.
  - simpl. by rewrite app_nil_r.
  - unfold escape_body. cbn [flat_map]. rewrite <- app_assoc.
    rewrite scanstring_escape_char by done.
    fold (escape_body s). rewrite IH, <- app_assoc. done.
Qed.


(** *** Values and objects *)

#[local] Arguments literal : simpl never.
#[local] Arguments match_number : simpl never.
#[local] Arguments scanstring : simpl never.
#[local] Arguments skip_ws : simpl never.
#[local] Arguments dict_of_pairs : simpl never.

Lemma literal_mismatch (name : str) (v : pyval) (c : N) (s : str) :
  match name with c0 :: _ => c <> c0 | [] => False end ->
  literal name v (c :: s) = None.
Proof.
  destruct name as [|c0 name']; [done|]. intros Hc.
  unfold literal, startswith. cbn [length take str_eqb].
  by apply N.eqb_neq in Hc as ->.
Qed.

Lemma skip_ws_cons (c : N) (rest : str) :
  skip_ws (c :: rest) = if is_ws c then skip_ws rest else c :: rest.
Proof. done. Qed.

Lemma skip_ws_blanks (ws rest : str) :
  Forall (fun c => is_ws c = true) ws -> skip_ws (ws ++ rest) = skip_ws rest.
Proof.
  induction 1 as [|c ws Hc _ IH]; [done|].
  cbn [app]. by rewrite skip_ws_cons, Hc.
Qed.

Lemma skip_ws_stop (c : N) (rest : str) :
  is_ws c = false -> skip_ws (c :: rest) = c :: rest.
Proof. intros Hc. by rewrite skip_ws_cons, Hc. Qed.

Lemma scan_once_string (fuel : nat) (s rest : str) :
  scalar_str s ->
  scan_once (S fuel) (encode_basestring_ascii s ++ rest) = Found (PStr s) rest.
Proof.
  intros Hs. unfold encode_basestring_ascii. cbn [app]. rewrite <- app_assoc.
  simpl. by rewrite scanstring_escape_body.
Qed.

Lemma repr_int_head (z : Z) :
  exists c t, repr_int z = c :: t /\ (c = ord "-" \/ is_digit c = true).
Proof.
  unfold repr_int. destruct (z <? 0)%Z; [by eauto|].
  destruct (digits_decimal (Z.abs_N z)) as [Hd _ Hh].
  destruct (digits (Z.abs_N z)) as [|c t]; [done|].
  apply Forall_cons in Hd as [Hc _]. eauto.
Qed.

Lemma scan_once_int (fuel : nat) (z : Z) (rest : str) :
  ends_number rest ->
  scan_once (S fuel) (repr_int z ++ rest) = Found (PInt z) rest.
Proof.
  intros Hrest. pose proof (match_number_repr_int z rest Hrest) as Hnum.
  destruct (repr_int_head z) as (c & t & Heq & Hc). rewrite Heq in *. cbn [app] in *.
  assert (c = 45 \/ 48 <= c <= 57)%N as Hrange.
  { destruct Hc as [->|Hc]; [by left|]. right. by apply is_digit_spec. }
  simpl.
  repeat match goal with
         | |- context [(c =? ?k)%N] =>
             replace (c =? k)%N with false by (symmetry; apply N.eqb_neq; unfold dquote, ord; simpl; lia)
         end.
  rewrite !literal_mismatch by (simpl; unfold ord; simpl; lia).
  by rewrite Hnum.
Qed.

Lemma skip_ws_int (z : Z) (rest : str) : skip_ws (repr_int z ++ rest) = repr_int z ++ rest.
Proof.
  destruct (repr_int_head z) as (c & t & -> & Hc). cbn [app]. apply skip_ws_stop.
  assert (c = 45 \/ 48 <= c <= 57)%N as Hrange.
  { destruct Hc as [->|Hc]; [by left|]. right. by apply is_digit_spec. }
  unfold is_ws. rewrite !orb_false_iff, !N.eqb_neq. lia.
Qed.

(** One [key: value] item of an object with more items after it, and
    the last item. *)
Lemma object_pairs_more (fuel : nat) (key vtext ws more : str) (v : pyval)
    (pairs : list (str * pyval)) :
  scalar_str key ->
  Forall (fun c => is_ws c = true) ws ->
  skip_ws (vtext ++ ord "," :: ws ++ dquote :: more) = vtext ++ ord "," :: ws ++ dquote :: more ->
  scan_once fuel (vtext ++ ord "," :: ws ++ dquote :: more)
    = Found v (ord "," :: ws ++ dquote :: more) ->
  object_pairs (S fuel)
    (escape_body key ++ dquote :: ord ":" :: space :: vtext ++ ord "," :: ws ++ dquote :: more) pairs
  = object_pairs fuel more (pairs ++ [(key, v)]).
Proof.
  intros Hkey Hws Hskip Hval. simpl.
  rewrite scanstring_escape_body by done. cbn [app].
  rewrite (skip_ws_stop (ord ":")) by done. simpl.
  change (skip_ws (space :: ?x)) with (skip_ws x). rewrite Hskip, Hval.
  rewrite (skip_ws_stop (ord ",")) by done. simpl.
  rewrite skip_ws_blanks by done. rewrite (skip_ws_stop dquote) by done. done.
Qed.

Lemma object_pairs_last (fuel : nat) (key vtext ws rest : str) (v : pyval)
    (pairs : list (str * pyval)) :
  scalar_str key ->
  Forall (fun c => is_ws c = true) ws ->
  skip_ws (vtext ++ ws ++ ord "}" :: rest) = vtext ++ ws ++ ord "}" :: rest ->
  scan_once fuel (vtext ++ ws ++ ord "}" :: rest) = Found v (ws ++ ord "}" :: rest) ->
  object_pairs (S fuel)
    (escape_body key ++ dquote :: ord ":" :: space :: vtext ++ ws ++ ord "}" :: rest) pairs
  = Found (pairs ++ [(key, v)]) rest.
Proof.
  intros Hkey Hws Hskip Hval. simpl.
  rewrite scanstring_escape_body by done. cbn [app].
  rewrite (skip_ws_stop (ord ":")) by done. simpl.
  change (skip_ws (space :: ?x)) with (skip_ws x). rewrite Hskip, Hval.
  rewrite skip_ws_blanks by done. rewrite (skip_ws_stop (ord "}")) by done. done.
Qed.

Lemma scan_once_object (fuel : nat) (ws more : str) :
  Forall (fun c => is_ws c = true) ws ->
  scan_once (S fuel) (ord "{" :: ws ++ dquote :: more)
  = match object_pairs fuel more [] with
    | Found pairs r => Found (PDict (dict_of_pairs pairs)) r
    | Invalid => Invalid
    | Exhausted => Exhausted
    end.
Proof.
  intros Hws. simpl. rewrite skip_ws_blanks by done.
  rewrite (skip_ws_stop dquote) by done. done.
Qed.

End JsonFacts.

(** ** The scanner ends

    Each call of the scanner leaves less text than it was given, and twice
    the length of the text is fuel enough for it. *)

Module JsonFuel.
Import Json JsonFacts.

Lemma skip_ws_length (s : str) : length (skip_ws s) <= length s.
Proof. induction s as [|c s IH]; simpl; [done|]. destruct (is_ws c); simpl; lia. Qed.

#[local] Arguments decode_uXXXX : simpl never.
#[local] Arguments simple_escape : simpl never.
#[local] Arguments is_high_surrogate : simpl never.
#[local] Arguments is_low_surrogate : simpl never.

Lemma scanstring_length (n : nat) (s acc k r : str) :
  length s <= n -> scanstring s acc = Found k r -> length r < length s.
Proof.
  revert s acc k r. induction n as [|n IH]; intros s acc k r Hlen H;
    (destruct s as [|c rest]; [discriminate H|]); [simpl in Hlen; lia|].
  simpl in H.
  repeat match type of H with
         | context [match ?x with _ => _ end] => destruct x eqn:?; try discriminate H
         end.
  all: try (injection H as <- <-; simpl; lia).
  all: apply IH in H; simpl in *; lia.
Qed.

Lemma scanstring_ends (n : nat) (s acc : str) :
  length s <= n -> scanstring s acc <> Exhausted.
Proof.
  revert s acc. induction n as [|n IH]; intros s acc Hlen H;
    (destruct s as [|c rest]; [discriminate H|]); [simpl in Hlen; lia|].
  simpl in H.
  repeat match type of H with
         | context [match ?x with _ => _ end] => destruct x eqn:?; try discriminate H
         end.
  all: apply IH in H; [done|simpl in *; lia].
Qed.

Lemma span_digits_length (s ds r : str) :
  span_digits s = (ds, r) -> length r <= length s.
Proof.
  revert ds r. induction s as [|c s IH]; intros ds r; simpl.
  - intros [= <- <-]. done.
  - destruct (is_digit c); [|intros [= <- <-]; simpl; lia].
    destruct (span_digits s) as [ds' r'] eqn:E. intros [= <- <-].
    specialize (IH _ _ eq_refl). lia.
Qed.

Ltac split_matches H :=
  repeat match type of H with
         | context [match ?x with _ => _ end] => destruct x eqn:?; try discriminate H
         end.

Lemma match_integer_length (s i r : str) (neg : bool) :
  match_integer s = Some (neg, i, r) -> length r < length s.
Proof.
  unfold match_integer. intros H.
  assert (forall (b : bool) (t : str),
            match t with
            | d :: r0 =>
                if (d =? ord "0")%N then Some (b, [d], r0)
                else if is_digit d then let '(ds, r') := span_digits r0 in Some (b, d :: ds, r')
                else None
            | [] => None
            end = Some (neg, i, r) -> length r < length t) as Hdigits.
  { intros b [|d r0] Ht; [discriminate Ht|]. split_matches Ht.
    - injection Ht as <- <- <-. simpl. lia.
    - apply span_digits_length in Heqp. injection Ht as <- <- <-. simpl. lia. }
  destruct s as [|c r0]; [discriminate H|].
  destruct (c =? ord "-")%N.
  - apply (Hdigits true r0) in H. simpl. lia.
  - by apply (Hdigits false (c :: r0)) in H.
Qed.

Lemma match_frac_length (s f r : str) : match_frac s = (f, r) -> length r <= length s.
Proof.
  unfold match_frac. intros H. split_matches H.
  all: repeat match goal with
              | E : span_digits _ = _ |- _ => apply span_digits_length in E
              end.
  all: injection H as <- <-; simpl in *; lia.
Qed.

Lemma match_exp_length (s e r : str) : match_exp s = (e, r) -> length r <= length s.
Proof.
  unfold match_exp. destruct s as [|e0 r0]; [by intros [= <- <-]|].
  destruct (_ || _); [|by intros [= <- <-]].
  destruct (match r0 with [] => _ | _ :: _ => _ end) as [sign r1] eqn:Hsign.
  assert (length r1 <= length r0) as Hr1.
  { destruct r0 as [|c r0']; [by injection Hsign as <- <-|].
    destruct (_ || _); injection Hsign as <- <-; simpl; lia. }
  destruct (span_digits r1) as [ds r'] eqn:Hd. apply span_digits_length in Hd.
  destruct ds; intros [= <- <-]; simpl in *; lia.
Qed.

Lemma match_number_length (s r : str) (v : pyval) :
  match_number s = Some (v, r) -> length r < length s.
Proof.
  unfold match_number. intros H.
  destruct (match_integer s) as [[[neg i] r0]|] eqn:Hint; [|discriminate H].
  destruct (match_frac r0) as [f r1] eqn:Hfrac. destruct (match_exp r1) as [e r2] eqn:Hexp.
  apply match_integer_length in Hint. apply match_frac_length in Hfrac.
  apply match_exp_length in Hexp.
  assert (r = r2) as -> by (destruct f, e; by injection H). lia.
Qed.

Lemma literal_length (name s r : str) (v v' : pyval) :
  name <> [] -> literal name v s = Some (v', r) -> length r < length s.
Proof.
  unfold literal, startswith. intros Hname H.
  destruct (str_eqb _ _) eqn:Heq; [|discriminate H]. injection H as _ <-.
  apply str_eqb_eq in Heq. apply (f_equal length) in Heq.
  rewrite length_take in Heq. rewrite length_drop.
  destruct name as [|c name']; [done|]. rewrite length_cons in *. lia.
Qed.

#[local] Arguments literal : simpl never.
#[local] Arguments match_number : simpl never.
#[local] Arguments scanstring : simpl never.
#[local] Arguments skip_ws : simpl never.
#[local] Arguments dict_of_pairs : simpl never.

Ltac split_goal :=
  repeat match goal with
         | |- context [match ?x with _ => _ end] => destruct x eqn:?
         end.

Lemma progress_weaken {A} (r : scan A) (s s' : str) :
  progress r s -> length s <= length s' -> progress r s'.
Proof. destruct r; simpl; [lia|done..]. Qed.

Ltac learn_lengths IHs IHo IHa :=
  repeat match goal with
         | E : scan_once _ (skip_ws ?x) = _ |- _ =>
             pose proof (skip_ws_length x);
             let y := fresh "s" in set (y := skip_ws x) in *; clearbody y
         | |- context [array_items _ (skip_ws ?x) _] =>
             pose proof (skip_ws_length x);
             let y := fresh "s" in set (y := skip_ws x) in *; clearbody y
         | E : skip_ws ?x = _ |- _ =>
             let H := fresh in pose proof (skip_ws_length x) as H; rewrite E in H; clear E
         | E : scanstring _ _ = Found _ _ |- _ => apply (scanstring_length _ _ _ _ _ (le_n _)) in E
         | E : scanstring _ _ = Exhausted |- _ => by apply (scanstring_ends _ _ _ (le_n _)) in E
         | E : match_number _ = Some _ |- _ => apply match_number_length in E
         | E : literal _ _ _ = Some _ |- _ => apply literal_length in E; [|discriminate]
         | E : scan_once ?f ?x = _ |- _ =>
             let H := fresh in
             assert (progress (scan_once f x) x) as H by (apply IHs; simpl in *; lia);
             rewrite E in H; clear E
         | E : object_pairs ?f ?x ?p = _ |- _ =>
             let H := fresh in
             assert (progress (object_pairs f x p) x) as H by (apply IHo; simpl in *; lia);
             rewrite E in H; clear E
         | E : array_items ?f ?x ?p = _ |- _ =>
             let H := fresh in
             assert (progress (array_items f x p) x) as H by (apply IHa; simpl in *; lia);
             rewrite E in H; clear E
         end.

Lemma scan_fuel (fuel : nat) :
  (forall s, 2 * length s + 1 <= fuel -> progress (scan_once fuel s) s) /\
  (forall s pairs, 2 * length s + 1 <= fuel -> progress (object_pairs fuel s pairs) s) /\
  (forall s values, 2 * length s + 2 <= fuel -> progress (array_items fuel s values) s).
Proof.
  induction fuel as [|fuel (IHs & IHo & IHa)].
  { repeat split; intros; lia. }
  split; [|split].
  - intros s Hfuel. simpl. split_goal; learn_lengths IHs IHo IHa; subst; simpl in *; try done; lia.
  - intros s pairs Hfuel. simpl. split_goal; learn_lengths IHs IHo IHa; subst; simpl in *; try done;
      try lia.
    eapply progress_weaken; [apply IHo|]; simpl in *; lia.
  - intros s values Hfuel. simpl. split_goal; learn_lengths IHs IHo IHa; subst; simpl in *; try done;
      try lia.
    eapply progress_weaken; [apply IHa|]; simpl in *; lia.
Qed.

(** [loads] gives its scanner enough fuel. *)
Lemma loads_fuel (s : str) :
  scan_once (S (2 * length (skip_ws s))) (skip_ws s) <> Exhausted.
Proof.
  intros H. pose proof (proj1 (scan_fuel (S (2 * length (skip_ws s)))) (skip_ws s)) as Hp.
  rewrite H in Hp. apply Hp. lia.
Qed.

End JsonFuel.

Import Json JsonFacts.

(** ** Encoding and decoding a record *)

Lemma object_text (k1 v1 k2 v2 k3 v3 k4 v4 k5 v5 : str) :
  u "{" ++ newline_indent (Some 4) 1
    ++ join_str (u "," ++ newline_indent (Some 4) 1)
         (map (fun kv : str * str => encode_basestring_ascii (fst kv) ++ u ": " ++ snd kv)
              [(k1, v1); (k2, v2); (k3, v3); (k4, v4); (k5, v5)])
    ++ newline_indent (Some 4) 0 ++ u "}"
  = ord "{" :: nl_indent ++ dquote ::
      member k1 v1 (ord "," :: nl_indent ++ dquote ::
      member k2 v2 (ord "," :: nl_indent ++ dquote ::
      member k3 v3 (ord "," :: nl_indent ++ dquote ::
      member k4 v4 (ord "," :: nl_indent ++ dquote ::
      member k5 v5 [newline; ord "}"])))).
Proof.
  unfold member, encode_basestring_ascii. cbn -[escape_body].
  repeat (rewrite <- !app_assoc; cbn [app]). reflexivity.
Qed.

Lemma AsJSON_members (self : RunData) :
  AsJSON self =
  ord "{" :: nl_indent ++ dquote ::
    member (u "http_host") (encode_field (http_host self)) (ord "," :: nl_indent ++ dquote ::
    member (u "http_port") (encode_field (http_port self)) (ord "," :: nl_indent ++ dquote ::
    member (u "pid") (encode_field (pid self)) (ord "," :: nl_indent ++ dquote ::
    member (u "script_name") (encode_field (script_name self)) (ord "," :: nl_indent ++ dquote ::
    member (u "station_id") (encode_field (station_id self)) [newline; ord "}"])))).
Proof.
  rewrite <- object_text. reflexivity.
Qed.

Lemma blanks_nl_indent : Forall (fun c => is_ws c = true) nl_indent.
Proof. repeat constructor. Qed.

Lemma skip_ws_string (s rest : str) :
  skip_ws (encode_basestring_ascii s ++ rest) = encode_basestring_ascii s ++ rest.
Proof. done. Qed.

(** The scanner reads back the object that [AsJSON] writes for a record
    with string and integer fields. *)
Lemma scan_once_AsJSON (fuel : nat) (sid sn hh : str) (port p : Z) :
  scalar_str sid -> scalar_str sn -> scalar_str hh ->
  scan_once (7 + fuel) (AsJSON (mkRunData (PStr sid) (PStr sn) (PStr hh) (PInt port) (PInt p)))
  = Found (PDict [(u "http_host", PStr hh); (u "http_port", PInt port); (u "pid", PInt p);
                  (u "script_name", PStr sn); (u "station_id", PStr sid)]) [].
Proof.
  intros Hsid Hsn Hhh. rewrite AsJSON_members.
  cbn [station_id script_name http_host http_port pid].
  change (encode_field (PStr ?s)) with (encode_basestring_ascii s).
  change (encode_field (PInt ?z)) with (repr_int z).
  cbn [Nat.add]. rewrite scan_once_object by apply blanks_nl_indent.
  unfold member.
  rewrite (object_pairs_more _ _ _ nl_indent _ (PStr hh));
    [|done|apply blanks_nl_indent|apply skip_ws_string|by apply scan_once_string].
  rewrite (object_pairs_more _ _ _ nl_indent _ (PInt port));
    [|done|apply blanks_nl_indent|apply skip_ws_int|by apply scan_once_int].
  rewrite (object_pairs_more _ _ _ nl_indent _ (PInt p));
    [|done|apply blanks_nl_indent|apply skip_ws_int|by apply scan_once_int].
  rewrite (object_pairs_more _ _ _ nl_indent _ (PStr sn));
    [|done|apply blanks_nl_indent|apply skip_ws_string|by apply scan_once_string].
  rewrite (object_pairs_last _ _ _ [newline] [] (PStr sid));
    [|done|by repeat constructor|apply skip_ws_string|by apply scan_once_string].
  reflexivity.
Qed.

Lemma loads_AsJSON (sid sn hh : str) (port p : Z) :
  scalar_str sid -> scalar_str sn -> scalar_str hh ->
  Json.loads (AsJSON (mkRunData (PStr sid) (PStr sn) (PStr hh) (PInt port) (PInt p)))
  = Ok (PDict [(u "http_host", PStr hh); (u "http_port", PInt port); (u "pid", PInt p);
               (u "script_name", PStr sn); (u "station_id", PStr sid)]).
Proof.
  intros Hsid Hsn Hhh. unfold loads.
  set (text := AsJSON _).
  assert (skip_ws text = text) as -> by (subst text; by rewrite AsJSON_members).
  assert (exists fuel, S (2 * length text) = 7 + fuel) as [fuel ->].
  { exists (S (2 * length text) - 7). subst text. rewrite AsJSON_members.
    cbn [length nl_indent app u map list_ascii_of_string]. lia. }
  subst text. rewrite scan_once_AsJSON by done. done.
Qed.

(** The run file of [station_A], as the format description shows it. *)
Example AsJSON_station_A :
  AsJSON station_A = jtext "{
    'http_host': 'localhost',
    'http_port': 8080,
    'pid': 4242,
    'script_name': 'script1.py',
    'station_id': 'station-A'
}".
Proof. reflexivity. Qed.

(** Quotes, control characters and characters outside ASCII are escaped
    and read back; a character above U+FFFF travels as a surrogate pair. *)
Example escapes_round_trip :
  let s := [dquote; backslash; newline; 0xE9; 0x20AC; 0x1F600]%N in
  Json.dumps true (Some 4) (u ",") (u ": ") (PStr s)
  = dquote :: u "\"
      ++ dquote :: u "\\\n\u00e9\u20ac\ud83d\ude00" ++ [dquote] /\
  Json.loads (Json.dumps true (Some 4) (u ",") (u ": ") (PStr s)) = Ok (PStr s).
Proof. split; reflexivity. Qed.

(** Why the round trip asks for well-formed strings: a high and a low
    surrogate next to each other in a string are written as two escapes,
    which read back as one character. *)
Example surrogates_merge :
  Json.loads (Json.dumps true (Some 4) (u ",") (u ": ") (PStr [0xD83D; 0xDE00]%N))
  = Ok (PStr [0x1F600%N]).
Proof. reflexivity. Qed.

(** ** Running the operations *)

Ltac io_unfold :=
  unfold mbind, io_bind, mret, io_ret, Os.bind, Os.ret, Os.raise, Os.lift in *.

(** [json.loads] raises nothing but [ValueError]. *)
Lemma loads_raises (text : str) (e : exn) : Json.loads text = Raise e -> e = ValueError.
Proof.
  unfold Json.loads.
  destruct (scan_once _ _) as [obj rest| |]; [destruct (skip_ws rest)|..]; congruence.
Qed.

(** [FromFile] on a regular file: decode the content, then bind the
    items to the fields. The machine is left as it was. *)
Lemma FromFile_regular (st : Os.state) (filename content : str) :
  Os.node_at st filename = Some (Os.File content) ->
  FromFile filename st
  = (match Json.loads content with
     | Ok decoded => RunData_new decoded
     | Raise e => Raise e
     end, st).
Proof.
  intros Hnode. unfold FromFile, Os.read_text. io_unfold. rewrite Hnode.
  by destruct (Json.loads content).
Qed.

Lemma FromFile_state (st : Os.state) (filename : str) : snd (FromFile filename st) = st.
Proof.
  unfold FromFile, Os.read_text. io_unfold.
  destruct (Os.node_at st filename) as [[content|entries]|]; [|done..].
  by destruct (Json.loads content).
Qed.

(** C1. Round trip: for a record with three string fields and two integer
    fields, reading a file that holds the text written by [AsJSON] gives
    back the record, field for field. Strings are well-formed Unicode
    text (no lone surrogate code points). *)
Theorem FromFile_AsJSON (st : Os.state) (filename sid sn hh : str) (port p : Z) :
  scalar_str sid -> scalar_str sn -> scalar_str hh ->
  let record := mkRunData (PStr sid) (PStr sn) (PStr hh) (PInt port) (PInt p) in
  Os.node_at st filename = Some (Os.File (AsJSON record)) ->
  FromFile filename st = (Ok record, st).
Proof.
  intros Hsid Hsn Hhh record Hnode.
  rewrite (FromFile_regular _ _ _ Hnode). unfold record.
  by rewrite loads_AsJSON.
Qed.

Lemma FromFile_AsJSON_witness :
  FromFile (u "/run/station-A") run_machine = (Ok station_A, run_machine).
Proof.
  apply (FromFile_AsJSON run_machine (u "/run/station-A")
           (u "station-A") (u "script1.py") (u "localhost") 8080 4242);
    reflexivity.
Defined.

(** *** Binding the decoded items to the fields *)

Lemma dict_get_None {V} (d : list (str * V)) (k : str) :
  dict_get d k = None <-> k ∉ dict_keys d.
Proof.
  induction d as [|[k' v] d IH]; simpl.
  - split; [intros _; apply not_elem_of_nil|done].
  - rewrite not_elem_of_cons. destruct (str_eqb k' k) eqn:Heq.
    + apply str_eqb_eq in Heq as ->. split; [done|]. by intros [? _].
    + rewrite IH. split; [|by intros [_ ?]]. intros Hk. split; [|done].
      intros ->. by rewrite str_eqb_refl in Heq.
Qed.

Lemma is_field (k : str) : existsb (str_eqb k) _fields = true <-> k ∈ _fields.
Proof.
  rewrite existsb_exists. split.
  - intros (f & Hf%list_elem_of_In & ->%str_eqb_eq). done.
  - intros Hk. exists k. split; [by apply list_elem_of_In|apply str_eqb_refl].
Qed.

Lemma RunData_new_unknown_key (kwargs : list (str * pyval)) (k : str) :
  k ∈ dict_keys kwargs -> k ∉ _fields -> RunData_new (PDict kwargs) = Raise TypeError.
Proof.
  intros Hk Hnot. unfold RunData_new.
  destruct (forallb _ _) eqn:Hall; [|done].
  rewrite forallb_forall in Hall. apply list_elem_of_In, Hall, is_field in Hk. done.
Qed.

Lemma RunData_new_missing_field (kwargs : list (str * pyval)) (f : str) :
  f ∈ _fields -> f ∉ dict_keys kwargs -> RunData_new (PDict kwargs) = Raise TypeError.
Proof.
  intros Hf Hnot%dict_get_None. unfold RunData_new.
  destruct (forallb _ _); [|done].
  unfold _fields in Hf. repeat (apply elem_of_cons in Hf as [->|Hf]).
  all: try (rewrite Hnot; by repeat case_match).
  by apply elem_of_nil in Hf.
Qed.

(** Membership in a list that is given by its elements. *)
Ltac in_list := repeat (apply elem_of_cons; first [left; reflexivity | right]).
Ltac not_in_list H :=
  repeat (apply elem_of_cons in H as [H|H]; [discriminate H|]); by apply elem_of_nil in H.

Lemma RunData_new_exact (kwargs : list (str * pyval)) :
  (forall k, k ∈ dict_keys kwargs <-> k ∈ _fields) ->
  exists a b c d e,
    dict_get kwargs (u "station_id") = Some a /\ dict_get kwargs (u "script_name") = Some b /\
    dict_get kwargs (u "http_host") = Some c /\ dict_get kwargs (u "http_port") = Some d /\
    dict_get kwargs (u "pid") = Some e /\
    RunData_new (PDict kwargs) = Ok (mkRunData a b c d e).
Proof.
  intros Hkeys.
  assert (forall f, f ∈ _fields -> is_Some (dict_get kwargs f)) as Hget.
  { intros f Hf%Hkeys. destruct (dict_get kwargs f) eqn:Hnone; [done|].
    by apply dict_get_None in Hnone. }
  destruct (Hget (u "station_id")) as [a Ha]; [unfold _fields; in_list|].
  destruct (Hget (u "script_name")) as [b Hb]; [unfold _fields; in_list|].
  destruct (Hget (u "http_host")) as [c Hc]; [unfold _fields; in_list|].
  destruct (Hget (u "http_port")) as [d Hd]; [unfold _fields; in_list|].
  destruct (Hget (u "pid")) as [e He]; [unfold _fields; in_list|].
  exists a, b, c, d, e. repeat (split; [done|]).
  unfold RunData_new. rewrite Ha, Hb, Hc, Hd, He.
  destruct (forallb _ _) eqn:Hall; [done|].
  apply not_true_iff_false in Hall. contradict Hall.
  apply forallb_forall. intros k Hk%list_elem_of_In. by apply is_field, Hkeys.
Qed.

(** C2. Strict schema: when the file holds well-formed text for an object
    whose keys are not exactly the five field names (a field is missing
    or an unknown key is present), [FromFile] raises [TypeError], the
    error of the constructor call. *)
Theorem FromFile_strict_keys (st : Os.state) (filename content : str)
    (kwargs : list (str * pyval)) :
  Os.node_at st filename = Some (Os.File content) ->
  Json.loads content = Ok (PDict kwargs) ->
  (exists f, f ∈ _fields /\ f ∉ dict_keys kwargs) \/
  (exists k, k ∈ dict_keys kwargs /\ k ∉ _fields) ->
  FromFile filename st = (Raise TypeError, st).
Proof.
  intros Hnode Hloads Hkeys. rewrite (FromFile_regular _ _ _ Hnode), Hloads.
  f_equal. destruct Hkeys as [(f & Hf & Hmissing)|(k & Hk & Hunknown)].
  - by eapply RunData_new_missing_field.
  - by eapply RunData_new_unknown_key.
Qed.

Lemma FromFile_strict_keys_witness :
  FromFile (u "/run/no-pid") run_machine = (Raise TypeError, run_machine) /\
  FromFile (u "/run/extra") run_machine = (Raise TypeError, run_machine).
Proof.
  split.
  - eapply (FromFile_strict_keys run_machine (u "/run/no-pid")).
    + reflexivity.
    + reflexivity.
    + left. exists (u "pid"). split; [vm_compute; in_list|].
      vm_compute. intros H. not_in_list H.
  - eapply (FromFile_strict_keys run_machine (u "/run/extra")).
    + reflexivity.
    + reflexivity.
    + right. exists (u "user"). split; [vm_compute; in_list|].
      vm_compute. intros H. not_in_list H.
Defined.

(** C3, as the module behaves: [FromFile] raises [ValueError] when the
    content is not well-formed JSON text. It does not look at the shape
    of the field values: when the decoded object has exactly the five
    keys, the record is built from the values as decoded, whatever their
    types. *)
Theorem FromFile_outcomes (st : Os.state) (filename content : str) :
  Os.node_at st filename = Some (Os.File content) ->
  (forall e, Json.loads content = Raise e -> FromFile filename st = (Raise ValueError, st)) /\
  (forall kwargs,
     Json.loads content = Ok (PDict kwargs) ->
     (forall k, k ∈ dict_keys kwargs <-> k ∈ _fields) ->
     exists a b c d e,
       dict_get kwargs (u "station_id") = Some a /\ dict_get kwargs (u "script_name") = Some b /\
       dict_get kwargs (u "http_host") = Some c /\ dict_get kwargs (u "http_port") = Some d /\
       dict_get kwargs (u "pid") = Some e /\
       FromFile filename st = (Ok (mkRunData a b c d e), st)).
Proof.
  intros Hnode. rewrite (FromFile_regular _ _ _ Hnode). split.
  - intros e He. rewrite He. by rewrite (loads_raises _ _ He).
  - intros kwargs -> Hkeys.
    destruct (RunData_new_exact kwargs Hkeys) as (a & b & c & d & e & Ha & Hb & Hc & Hd & He & Hnew).
    exists a, b, c, d, e. by rewrite Hnew.
Qed.

Lemma FromFile_outcomes_witness :
  FromFile (u "/run/truncated") run_machine = (Raise ValueError, run_machine) /\
  (exists a b c d e,
     dict_get loose_items (u "station_id") = Some a /\
     dict_get loose_items (u "script_name") = Some b /\
     dict_get loose_items (u "http_host") = Some c /\
     dict_get loose_items (u "http_port") = Some d /\
     dict_get loose_items (u "pid") = Some e /\
     FromFile (u "/run/loose") run_machine = (Ok (mkRunData a b c d e), run_machine)).
Proof.
  split.
  - refine (proj1 (FromFile_outcomes run_machine (u "/run/truncated")
                     (jtext "{'station_id': 'station-T', 'pid'") _) ValueError _);
      reflexivity.
  - refine (proj2 (FromFile_outcomes run_machine (u "/run/loose")
                     (jtext "{'station_id': 'station-L', 'script_name': 'l.py', 'http_host': 'localhost', 'http_port': 'eighty', 'pid': '4242'}") _)
                  loose_items _ _); [reflexivity|reflexivity|].
    intros k. reflexivity.
Defined.

(** C3, as stated, fails: a run file whose [http_port] and [pid] are
    strings is read without any error, and the record holds the strings. *)
Lemma FromFile_wrong_shape_accepted :
  Os.node_at run_machine (u "/run/loose")
  = Some (Os.File (jtext "{'station_id': 'station-L', 'script_name': 'l.py', 'http_host': 'localhost', 'http_port': 'eighty', 'pid': '4242'}")) /\
  FromFile (u "/run/loose") run_machine
  = (Ok (mkRunData (PStr (u "station-L")) (PStr (u "l.py")) (PStr (u "localhost"))
                   (PStr (u "eighty")) (PStr (u "4242"))),
     run_machine) /\
  fst (FromFile (u "/run/loose") run_machine) <> Raise TypeError.
Proof. split; [reflexivity|]. split; [reflexivity|]. intros H. discriminate H. Qed.

(** C10. When the file holds well-formed JSON text for a value that is not
    an object (a list, a number, a string, a constant), [FromFile] raises
    [TypeError] from the constructor call, not [ValueError], and builds
    no record. *)
Theorem FromFile_not_a_mapping (st : Os.state) (filename content : str) (decoded : pyval) :
  Os.node_at st filename = Some (Os.File content) ->
  Json.loads content = Ok decoded ->
  (forall kwargs, decoded <> PDict kwargs) ->
  FromFile filename st = (Raise TypeError, st).
Proof.
  intros Hnode Hloads Hshape. rewrite (FromFile_regular _ _ _ Hnode), Hloads.
  destruct decoded; try done. by destruct (Hshape items).
Qed.

Lemma FromFile_not_a_mapping_witness :
  FromFile (u "/run/list") run_machine = (Raise TypeError, run_machine).
Proof.
  eapply (FromFile_not_a_mapping run_machine (u "/run/list")).
  - reflexivity.
  - reflexivity.
  - intros kwargs H. discriminate H.
Defined.

(** C4. The encoding is a function of the five field values alone, and it
    has the documented layout: the five keys in ascending order, one item
    per line behind four spaces, a colon and a space between key and
    value, and a comma with nothing after it before the line break. A
    string field is written as a JSON string and an integer field in
    decimal. *)
Theorem AsJSON_layout (self : RunData) :
  AsJSON self
  = object_layout [(u "http_host", encode_field (http_host self));
                   (u "http_port", encode_field (http_port self));
                   (u "pid", encode_field (pid self));
                   (u "script_name", encode_field (script_name self));
                   (u "station_id", encode_field (station_id self))] /\
  ascending [u "http_host"; u "http_port"; u "pid"; u "script_name"; u "station_id"] = true /\
  (forall s, encode_field (PStr s) = Json.encode_basestring_ascii s) /\
  (forall z, encode_field (PInt z) = Json.repr_int z) /\
  (forall other,
     station_id other = station_id self -> script_name other = script_name self ->
     http_host other = http_host self -> http_port other = http_port self ->
     pid other = pid self -> AsJSON other = AsJSON self).
Proof.
  split; [|split; [reflexivity|split; [reflexivity|split; [reflexivity|]]]].
  - rewrite AsJSON_members.
    generalize (encode_field (http_host self)) (encode_field (http_port self))
               (encode_field (pid self)) (encode_field (script_name self))
               (encode_field (station_id self)).
    intros v1 v2 v3 v4 v5. unfold member.
    change (escape_body (u "http_host")) with (u "http_host").
    change (escape_body (u "http_port")) with (u "http_port").
    change (escape_body (u "pid")) with (u "pid").
    change (escape_body (u "script_name")) with (u "script_name").
    change (escape_body (u "station_id")) with (u "station_id").
    unfold object_layout, item_line, quoted, nl_indent. cbn.
    repeat (rewrite <- !app_assoc; cbn [app]). reflexivity.
  - intros [a b c d e]. destruct self. simpl. by intros -> -> -> -> ->.
Qed.

(** *** Writing a run file *)

Lemma open_w_ok (st st1 : Os.state) (filename : str) (k : list str) :
  Os.open_w filename st = (Ok k, st1) ->
  Os.locate st filename = Some k /\ endswith filename [Os.sep] = false /\
  Os.cwd st1 = Os.cwd st /\ Os.kill_errno st1 = Os.kill_errno st /\
  Os.nodes st1 !! k = Some (Os.File []) /\
  (forall k' content, k' <> k ->
     Os.nodes st1 !! k' = Some (Os.File content) <-> Os.nodes st !! k' = Some (Os.File content)).
Proof.
  unfold Os.open_w. destruct (Os.locate st filename) as [k0|]; [|done].
  destruct (Os.nodes st !! k0) as [[old|entries]|] eqn:Hnode; [|done|].
  - destruct (endswith filename [Os.sep]); [done|]. intros [= <- <-]. simpl.
    repeat (split; [done|]). split; [apply lookup_insert_eq|].
    intros k' content Hk'. by rewrite lookup_insert_ne.
  - destruct (endswith filename [Os.sep]); [done|].
    destruct (Os.nodes st !! removelast k0) as [[?|entries]|] eqn:Hparent; [done| |done].
    destruct (last k0) as [name|]; [|done]. intros [= <- <-]. simpl.
    repeat (split; [done|]). split; [apply lookup_insert_eq|].
    intros k' content Hk'. rewrite lookup_insert_ne by done.
    destruct (decide (removelast k0 = k')) as [<-|Hne].
    + rewrite lookup_insert_eq, Hparent. done.
    + by rewrite lookup_insert_ne.
Qed.

(** C5. [SaveToFile] of a record whose station id is a string opens the
    path [os.path.join(directory, station_id)] for writing. When that
    succeeds, it returns exactly this path, the file at the path then
    holds the encoding of the record and nothing else (what the file
    held before is gone), and every other file is as it was. When the
    file cannot be opened, the error of [open] propagates and nothing
    changes. *)
Theorem SaveToFile_spec (st : Os.state) (self : RunData) (directory name : str) :
  station_id self = PStr name ->
  let filename := Os.path_join directory name in
  match Os.open_w filename st with
  | (Ok k, _) =>
      exists st',
        SaveToFile self directory st = (Ok filename, st') /\
        Os.node_at st' filename = Some (Os.File (AsJSON self)) /\
        (forall k' content, k' <> k ->
           Os.nodes st' !! k' = Some (Os.File content) <-> Os.nodes st !! k' = Some (Os.File content))
  | (Raise e, _) => SaveToFile self directory st = (Raise e, st)
  end.
Proof.
  intros Hid filename. unfold SaveToFile. rewrite Hid. io_unfold. fold filename.
  destruct (Os.open_w filename st) as [[k|e] st1] eqn:Hopen.
  - destruct (open_w_ok _ _ _ _ Hopen) as (Hloc & Hslash & Hcwd & _ & Hnew & Hothers).
    unfold Os.write. rewrite Hnew. eexists. split; [reflexivity|]. split.
    + unfold Os.node_at, Os.locate in *. simpl. rewrite Hcwd.
      destruct (str_eqb filename []); [done|]. injection Hloc as ->.
      by rewrite lookup_insert_eq, Hslash.
    + intros k' content Hk'. simpl. rewrite lookup_insert_ne by done. by apply Hothers.
  - unfold Os.open_w in Hopen. repeat case_match; congruence.
Qed.

Lemma SaveToFile_spec_witness :
  exists st',
    SaveToFile station_A_restarted (u "/run") run_machine = (Ok (u "/run/station-A"), st') /\
    Os.node_at st' (u "/run/station-A") = Some (Os.File (AsJSON station_A_restarted)) /\
    (forall k' content, k' <> [u "run"; u "station-A"] ->
       Os.nodes st' !! k' = Some (Os.File content)
       <-> Os.nodes run_machine !! k' = Some (Os.File content)).
Proof.
  exact (SaveToFile_spec run_machine station_A_restarted (u "/run") (u "station-A") eq_refl).
Defined.

(** *** The liveness probe *)

(** C6. For a record whose [pid] is an integer that is a process id of the
    system, [IsAlive] returns a boolean and raises nothing: [True] when
    the probe with signal 0 succeeds, and [False] for every error of the
    operating system, whatever its number (no such process, no
    permission, or anything else). The machine is left as it was. *)
Theorem IsAlive_spec (st : Os.state) (self : RunData) (p : Z) :
  pid self = PInt p -> Os.fits_pid_t p = true ->
  (Os.kill_errno st p 0 = None -> IsAlive self st = (Ok true, st)) /\
  (forall errno, Os.kill_errno st p 0 = Some errno -> IsAlive self st = (Ok false, st)) /\
  (exists alive : bool, IsAlive self st = (Ok alive, st)).
Proof.
  intros Hpid Hfits. unfold IsAlive, Os.try_except_else, Os.kill. rewrite Hpid, Hfits.
  destruct (Os.kill_errno st p 0) as [errno|]; simpl.
  - split; [done|]. split; [done|]. by exists false.
  - split; [done|]. split; [done|]. by exists true.
Qed.

Lemma IsAlive_spec_witness :
  IsAlive station_A run_machine = (Ok true, run_machine) /\
  IsAlive station_B run_machine = (Ok false, run_machine) /\
  IsAlive station_A_restarted run_machine = (Ok false, run_machine).
Proof.
  split; [|split].
  - apply (proj1 (IsAlive_spec run_machine station_A 4242 eq_refl eq_refl)). reflexivity.
  - apply (proj1 (proj2 (IsAlive_spec run_machine station_B 1 eq_refl eq_refl)) Os.EPERM).
    reflexivity.
  - apply (proj1 (proj2 (IsAlive_spec run_machine station_A_restarted 5151 eq_refl eq_refl))
             Os.ESRCH).
    reflexivity.
Defined.

(** Outside these hypotheses [os.kill] rejects its argument before it
    probes anything, with an error that is not an [OSError]. *)
Example IsAlive_without_a_process_id :
  fst (IsAlive (mkRunData (PStr (u "s")) (PStr (u "x")) (PStr (u "h")) (PInt 1) (PStr (u "4242")))
               run_machine) = Raise TypeError /\
  fst (IsAlive (mkRunData (PStr (u "s")) (PStr (u "x")) (PStr (u "h")) (PInt 1) (PInt (2 ^ 31)))
               run_machine) = Raise OverflowError.
Proof. split; reflexivity. Qed.

(** *** Scanning a directory *)

Lemma isfile_regular (st : Os.state) (path : str) :
  Os.isfile path st = (Ok (is_regular st path), st).
Proof. unfold Os.isfile, is_regular. by repeat case_match. Qed.

Lemma FromFile_fst (st : Os.state) (filename : str) :
  FromFile filename st = (fst (FromFile filename st), st).
Proof. rewrite <- (FromFile_state st filename) at 3. by destruct (FromFile filename st). Qed.

(** The loop of the scanner reads the regular files among the paths, in
    order, and stops at the first error. *)
Lemma from_files_decode_all (st : Os.state) (filepaths : list str) :
  from_files filepaths st = (decode_all st (List.filter (is_regular st) filepaths), st).
Proof.
  induction filepaths as [|filepath rest IH]; [done|].
  cbn [from_files]. io_unfold. rewrite isfile_regular.
  cbn [List.filter]. destruct (is_regular st filepath); [|done].
  cbn [decode_all]. rewrite (FromFile_fst st filepath).
  destruct (fst (FromFile filepath st)); [|done].
  rewrite IH. by destruct (decode_all st _).
Qed.

Lemma EnumerateRunDirectory_decode_all (st : Os.state) (directory : str) (names : list str) :
  Os.listdir directory st = (Ok names, st) ->
  EnumerateRunDirectory directory st
  = (decode_all st (List.filter (is_regular st) (map (Os.path_join directory) names)), st).
Proof.
  intros Hlist. unfold EnumerateRunDirectory. io_unfold. rewrite Hlist.
  rewrite from_files_decode_all. by destruct (decode_all st _).
Qed.

Lemma decode_all_Forall2 (st : Os.state) (paths : list str) (records : list RunData) :
  Forall2 (fun path record => fst (FromFile path st) = Ok record) paths records ->
  decode_all st paths = Ok records.
Proof. induction 1 as [|path record paths records Hr _ IH]; [done|]. simpl. by rewrite Hr, IH. Qed.

Lemma decode_all_raises (st : Os.state) (paths : list str) (path : str) (e : exn) :
  path ∈ paths -> fst (FromFile path st) = Raise e ->
  exists e', decode_all st paths = Raise e'.
Proof.
  intros Hin He. induction paths as [|path' rest IH]; [by apply elem_of_nil in Hin|].
  simpl. apply elem_of_cons in Hin as [<-|Hin].
  - rewrite He. by eexists.
  - destruct (fst (FromFile path' st)); [|by eexists].
    destruct (IH Hin) as [e' ->]. by eexists.
Qed.

Lemma decode_all_first_error (st : Os.state) (before after : list str) (path : str) (e : exn) :
  Forall (fun p => exists record, fst (FromFile p st) = Ok record) before ->
  fst (FromFile path st) = Raise e ->
  decode_all st (before ++ path :: after) = Raise e.
Proof.
  intros Hbefore He. induction Hbefore as [|p before [record Hp] _ IH]; simpl.
  - by rewrite He.
  - by rewrite Hp, IH.
Qed.

Lemma FromFile_Ok_regular (st : Os.state) (path : str) (record : RunData) :
  fst (FromFile path st) = Ok record -> is_regular st path = true.
Proof.
  unfold FromFile, Os.read_text, is_regular. io_unfold.
  by destruct (Os.node_at st path) as [[content|entries]|].
Qed.

Lemma filter_regular_decoded (st : Os.state) (paths : list str) :
  Forall (fun p => is_regular st p = true -> exists record, fst (FromFile p st) = Ok record) paths ->
  Forall (fun p => exists record, fst (FromFile p st) = Ok record)
         (List.filter (is_regular st) paths).
Proof.
  induction 1 as [|p paths Hp _ IH]; [constructor|].
  cbn [List.filter]. destruct (is_regular st p) eqn:Hreg; [|done].
  constructor; [by apply Hp|done].
Qed.

(** C7. A [ValueError] from decoding is caught nowhere. [FromFile] raises
    it for a file whose content [json.loads] rejects. A scan of a
    directory that lists such a file returns no list: it raises, and the
    error is this [ValueError] when every regular file listed before the
    malformed one can be read. *)
Theorem ValueError_propagates (st : Os.state) :
  (forall filename content e,
     Os.node_at st filename = Some (Os.File content) -> Json.loads content = Raise e ->
     FromFile filename st = (Raise ValueError, st)) /\
  (forall directory names name content e,
     Os.listdir directory st = (Ok names, st) -> name ∈ names ->
     Os.node_at st (Os.path_join directory name) = Some (Os.File content) ->
     Json.loads content = Raise e ->
     exists e', EnumerateRunDirectory directory st = (Raise e', st)) /\
  (forall directory before name after content e,
     Os.listdir directory st = (Ok (before ++ name :: after), st) ->
     Forall (fun n => is_regular st (Os.path_join directory n) = true ->
                      exists record, fst (FromFile (Os.path_join directory n) st) = Ok record)
            before ->
     Os.node_at st (Os.path_join directory name) = Some (Os.File content) ->
     Json.loads content = Raise e ->
     EnumerateRunDirectory directory st = (Raise ValueError, st)).
Proof.
  assert (forall filename content e,
            Os.node_at st filename = Some (Os.File content) -> Json.loads content = Raise e ->
            FromFile filename st = (Raise ValueError, st)) as Hfile.
  { intros filename content e Hnode He.
    rewrite (FromFile_regular _ _ _ Hnode), He. by rewrite (loads_raises _ _ He). }
  split; [done|]. split.
  - intros directory names name content e Hlist Hin Hnode He.
    rewrite (EnumerateRunDirectory_decode_all _ _ _ Hlist).
    destruct (decode_all_raises st
                (List.filter (is_regular st) (map (Os.path_join directory) names))
                (Os.path_join directory name) ValueError) as [e' ->]; [| |by eexists].
    + apply list_elem_of_In, filter_In. split.
      * apply in_map. by apply list_elem_of_In.
      * unfold is_regular. by rewrite Hnode.
    + by rewrite (Hfile _ _ _ Hnode He).
  - intros directory before name after content e Hlist Hbefore Hnode He.
    rewrite (EnumerateRunDirectory_decode_all _ _ _ Hlist).
    rewrite map_app, List.filter_app. cbn [map List.filter].
    replace (is_regular st (Os.path_join directory name)) with true
      by (unfold is_regular; by rewrite Hnode).
    f_equal. apply decode_all_first_error.
    + apply filter_regular_decoded. by apply Forall_map.
    + by rewrite (Hfile _ _ _ Hnode He).
Qed.

Lemma ValueError_propagates_witness :
  FromFile (u "/run/truncated") run_machine = (Raise ValueError, run_machine) /\
  (exists e', EnumerateRunDirectory (u "/run") run_machine = (Raise e', run_machine)) /\
  EnumerateRunDirectory (u "/run") run_machine = (Raise ValueError, run_machine).
Proof.
  split; [|split].
  - apply (proj1 (ValueError_propagates run_machine) (u "/run/truncated")
             (jtext "{'station_id': 'station-T', 'pid'") ValueError); reflexivity.
  - apply (proj1 (proj2 (ValueError_propagates run_machine)) (u "/run")
             [u "old"; u "station-A"; u "truncated"; u "no-pid"; u "extra"; u "list";
              u "loose"; u "station-B"]
             (u "truncated") (jtext "{'station_id': 'station-T', 'pid'") ValueError).
    + reflexivity.
    + in_list.
    + reflexivity.
    + reflexivity.
  - apply (proj2 (proj2 (ValueError_propagates run_machine)) (u "/run")
             [u "old"; u "station-A"] (u "truncated")
             [u "no-pid"; u "extra"; u "list"; u "loose"; u "station-B"]
             (jtext "{'station_id': 'station-T', 'pid'") ValueError).
    + reflexivity.
    + repeat constructor.
      * intros H. vm_compute in H. discriminate H.
      * intros _. exists station_A. reflexivity.
    + reflexivity.
    + reflexivity.
Defined.

(** C8. A scan reads the entries of the directory that are regular
    files, and only those: the result is what reading these files in the
    order of the listing gives. A subdirectory is passed over, whatever
    it holds: a directory with one run file and one subdirectory yields
    exactly the record of that file. *)
Theorem EnumerateRunDirectory_regular_files (st : Os.state) (directory : str)
    (names : list str) :
  Os.listdir directory st = (Ok names, st) ->
  EnumerateRunDirectory directory st
  = (decode_all st (List.filter (is_regular st) (map (Os.path_join directory) names)), st) /\
  (forall file sub record entries,
     names = [file; sub] \/ names = [sub; file] ->
     fst (FromFile (Os.path_join directory file) st) = Ok record ->
     Os.node_at st (Os.path_join directory sub) = Some (Os.Dir entries) ->
     EnumerateRunDirectory directory st = (Ok [record], st)).
Proof.
  intros Hlist. pose proof (EnumerateRunDirectory_decode_all _ _ _ Hlist) as Hscan.
  split; [done|]. intros file sub record entries Hnames Hfile Hsub. rewrite Hscan.
  pose proof (FromFile_Ok_regular _ _ _ Hfile) as Hreg.
  assert (is_regular st (Os.path_join directory sub) = false) as Hdir
    by (unfold is_regular; by rewrite Hsub).
  destruct Hnames as [-> | ->]; cbn [map List.filter]; rewrite Hreg, Hdir;
    cbn [decode_all]; by rewrite Hfile.
Qed.

Lemma EnumerateRunDirectory_regular_files_witness :
  EnumerateRunDirectory (u "/var/run/solo") tidy_machine = (Ok [station_A], tidy_machine).
Proof.
  refine (proj2 (EnumerateRunDirectory_regular_files tidy_machine (u "/var/run/solo")
                   [u "nested"; u "station-A"] _)
                (u "station-A") (u "nested") station_A [u "junk"] _ _ _).
  - reflexivity.
  - right; reflexivity.
  - reflexivity.
  - reflexivity.
Defined.

(** C9. When every regular file that the directory lists decodes to a
    record, a scan returns these records: one per file, each the decoding
    of the content of its file, in the order in which the listing yields
    the files. *)
Theorem EnumerateRunDirectory_all_valid (st : Os.state) (directory : str)
    (names : list str) (records : list RunData) :
  Os.listdir directory st = (Ok names, st) ->
  Forall2 (fun path record =>
             exists content decoded,
               Os.node_at st path = Some (Os.File content) /\
               Json.loads content = Ok decoded /\ RunData_new decoded = Ok record)
          (List.filter (is_regular st) (map (Os.path_join directory) names)) records ->
  EnumerateRunDirectory directory st = (Ok records, st).
Proof.
  intros Hlist Hfiles. rewrite (EnumerateRunDirectory_decode_all _ _ _ Hlist).
  f_equal. apply decode_all_Forall2.
  eapply Forall2_impl; [exact Hfiles|].
  intros path record (content & decoded & Hnode & Hloads & Hnew). cbv beta.
  by rewrite (FromFile_regular _ _ _ Hnode), Hloads.
Qed.

Lemma EnumerateRunDirectory_all_valid_witness :
  EnumerateRunDirectory (u "/var/run/openhtf") tidy_machine
  = (Ok [station_B; station_A], tidy_machine).
Proof.
  apply (EnumerateRunDirectory_all_valid tidy_machine (u "/var/run/openhtf")
           [u "station-B"; u "archive"; u "station-A"]).
  - reflexivity.
  - change (List.filter (is_regular tidy_machine)
              (map (Os.path_join (u "/var/run/openhtf")) [u "station-B"; u "archive"; u "station-A"]))
      with [u "/var/run/openhtf/station-B"; u "/var/run/openhtf/station-A"].
    constructor; [|constructor; [|constructor]].
    + exists (AsJSON station_B). eexists. repeat split; reflexivity.
    + exists (AsJSON station_A). eexists. repeat split; reflexivity.
Defined.

(** ** A station publishes itself and is found

    On a machine with an empty run directory, a station writes its run
    file; a scan of the directory then finds exactly this station, and the
    probe of its process succeeds. *)

Example publish_and_scan :
  let '(saved, machine) := SaveToFile station_A (u "/var/run/openhtf") fresh_machine in
  saved = Ok (u "/var/run/openhtf/station-A") /\
  fst (EnumerateRunDirectory (u "/var/run/openhtf") machine) = Ok [station_A] /\
  fst (IsAlive station_A machine) = Ok true.
Proof. repeat split; reflexivity. Qed.

(** * Further properties of the operations *)

(** ** Saving *)

Lemma typed_record_inv (self : RunData) :
  typed_record self = true ->
  exists sid sn hh port p,
    self = mkRunData (PStr sid) (PStr sn) (PStr hh) (PInt port) (PInt p) /\
    scalar_str sid /\ scalar_str sn /\ scalar_str hh.
Proof.
  destruct self as [a b c d e]. unfold typed_record. simpl.
  destruct a; try done. destruct b; try done. destruct c; try done.
  destruct d; try done. destruct e; try done.
  intros [[H1 H2]%andb_true_iff H3]%andb_true_iff. by eauto 10.
Qed.

Lemma loads_AsJSON_typed (self : RunData) :
  typed_record self = true ->
  Json.loads (AsJSON self)
  = Ok (PDict [(u "http_host", http_host self); (u "http_port", http_port self);
               (u "pid", pid self); (u "script_name", script_name self);
               (u "station_id", station_id self)]).
Proof.
  intros (sid & sn & hh & port & p & -> & Hsid & Hsn & Hhh)%typed_record_inv.
  by apply loads_AsJSON.
Qed.

(** The machine after a successful save, in terms of the machine after
    the [open]. *)
Lemma SaveToFile_opened (st st1 : Os.state) (self : RunData) (directory name : str)
    (k : list str) :
  station_id self = PStr name ->
  Os.open_w (Os.path_join directory name) st = (Ok k, st1) ->
  SaveToFile self directory st
  = (Ok (Os.path_join directory name),
     Os.set_nodes st1 (<[k := Os.File (AsJSON self)]> (Os.nodes st1))).
Proof.
  intros Hid Hopen. unfold SaveToFile. rewrite Hid. io_unfold. rewrite Hopen.
  destruct (open_w_ok _ _ _ _ Hopen) as (_ & _ & _ & _ & Hnew & _).
  unfold Os.write. by rewrite Hnew.
Qed.

Lemma open_w_raises (st st1 : Os.state) (filename : str) (e : exn) :
  Os.open_w filename st = (Raise e, st1) -> st1 = st.
Proof. unfold Os.open_w. repeat case_match; congruence. Qed.

Lemma SaveToFile_not_opened (st st1 : Os.state) (self : RunData) (directory name : str)
    (e : exn) :
  station_id self = PStr name ->
  Os.open_w (Os.path_join directory name) st = (Raise e, st1) ->
  SaveToFile self directory st = (Raise e, st).
Proof.
  intros Hid Hopen. unfold SaveToFile. rewrite Hid. io_unfold. rewrite Hopen.
  by rewrite (open_w_raises _ _ _ _ Hopen).
Qed.

Lemma SaveToFile_untyped (st : Os.state) (self : RunData) (directory : str) :
  (forall name, station_id self <> PStr name) ->
  SaveToFile self directory st = (Raise TypeError, st).
Proof.
  intros Hid. unfold SaveToFile. io_unfold.
  destruct (station_id self) eqn:E; try done. by destruct (Hid s).
Qed.

Lemma node_at_saved (st1 : Os.state) (filename text : str) (k : list str) :
  Os.locate st1 filename = Some k -> endswith filename [Os.sep] = false ->
  Os.node_at (Os.set_nodes st1 (<[k := Os.File text]> (Os.nodes st1))) filename
  = Some (Os.File text).
Proof.
  intros Hloc Hslash. unfold Os.node_at, Os.locate in *. simpl.
  destruct (str_eqb filename []); [done|]. injection Hloc as ->.
  by rewrite lookup_insert_eq, Hslash.
Qed.

Lemma locate_cwd (st st' : Os.state) (p : str) :
  Os.cwd st' = Os.cwd st -> Os.locate st' p = Os.locate st p.
Proof. intros H. unfold Os.locate. by rewrite H. Qed.

(** X1. What [SaveToFile] wrote, [FromFile] reads back: after a successful
    save of a record with the documented field types, reading the
    returned path gives the record. *)
Theorem FromFile_SaveToFile (st st' : Os.state) (self : RunData) (directory filename : str) :
  typed_record self = true ->
  SaveToFile self directory st = (Ok filename, st') ->
  FromFile filename st' = (Ok self, st').
Proof.
  intros Htyped Hsave.
  destruct (typed_record_inv _ Htyped) as (sid & sn & hh & port & p & Hself & _).
  assert (station_id self = PStr sid) as Hid by (by rewrite Hself).
  destruct (Os.open_w (Os.path_join directory sid) st) as [[k|e] st1] eqn:Hopen.
  - rewrite (SaveToFile_opened _ _ _ _ _ _ Hid Hopen) in Hsave. injection Hsave as <- <-.
    destruct (open_w_ok _ _ _ _ Hopen) as (Hloc & Hslash & Hcwd & _).
    rewrite (FromFile_regular _ _ (AsJSON self)).
    + rewrite (loads_AsJSON_typed _ Htyped). by destruct self.
    + apply node_at_saved; [|done]. by rewrite (locate_cwd st st1 _ Hcwd).
  - by rewrite (SaveToFile_not_opened _ _ _ _ _ _ Hid Hopen) in Hsave.
Qed.

Lemma FromFile_SaveToFile_witness :
  FromFile (u "/run/station-A")
           (snd (SaveToFile station_A_restarted (u "/run") run_machine))
  = (Ok station_A_restarted, snd (SaveToFile station_A_restarted (u "/run") run_machine)).
Proof.
  apply (FromFile_SaveToFile run_machine _ station_A_restarted (u "/run")); reflexivity.
Defined.



Lemma set_nodes_set_nodes (st : Os.state) (m m' : gmap (list str) Os.node) :
  Os.set_nodes (Os.set_nodes st m) m' = Os.set_nodes st m'.
Proof. done. Qed.

(** The save of a record over the file that an earlier save has written. *)
Lemma SaveToFile_again (st1 : Os.state) (self : RunData) (directory name text : str)
    (k : list str) :
  station_id self = PStr name ->
  Os.locate st1 (Os.path_join directory name) = Some k ->
  endswith (Os.path_join directory name) [Os.sep] = false ->
  SaveToFile self directory (Os.set_nodes st1 (<[k := Os.File text]> (Os.nodes st1)))
  = (Ok (Os.path_join directory name),
     Os.set_nodes st1 (<[k := Os.File (AsJSON self)]> (Os.nodes st1))).
Proof.
  intros Hid Hloc Hslash.
  erewrite SaveToFile_opened; [|done|].
  - rewrite set_nodes_set_nodes. cbn [Os.nodes Os.set_nodes]. by rewrite insert_insert_eq.
  - unfold Os.open_w. rewrite (locate_cwd st1) by done. rewrite Hloc.
    cbn [Os.nodes Os.set_nodes]. rewrite lookup_insert_eq, Hslash.
    rewrite set_nodes_set_nodes. by rewrite insert_insert_eq.
Qed.

(** X2. The last writer wins: saving a record and then another one with
    the same station id to the same directory gives the result and the
    machine that saving the second record alone gives. Nothing of the
    first record is left, and saving the same record twice is the same as
    saving it once. *)
Theorem SaveToFile_last_writer (st : Os.state) (first second : RunData) (directory : str) :
  station_id first = station_id second ->
  SaveToFile second directory (snd (SaveToFile first directory st))
  = SaveToFile second directory st.
Proof.
  intros Hid. destruct (station_id second) as [| | | |name| |] eqn:Hsecond;
    try (by rewrite !SaveToFile_untyped by (intros ?; congruence)).
  destruct (Os.open_w (Os.path_join directory name) st) as [[k|e] st1] eqn:Hopen.
  - rewrite (SaveToFile_opened _ _ first _ _ _ Hid Hopen).
    rewrite (SaveToFile_opened _ _ second _ _ _ Hsecond Hopen). cbn [snd].
    destruct (open_w_ok _ _ _ _ Hopen) as (Hloc & Hslash & Hcwd & _).
    apply SaveToFile_again; [done| |done]. by rewrite (locate_cwd st st1 _ Hcwd).
  - by rewrite (SaveToFile_not_opened _ _ first _ _ _ Hid Hopen).
Qed.

Lemma SaveToFile_last_writer_witness :
  SaveToFile station_A_restarted (u "/var/run/openhtf")
             (snd (SaveToFile station_A (u "/var/run/openhtf") fresh_machine))
  = SaveToFile station_A_restarted (u "/var/run/openhtf") fresh_machine.
Proof.
  exact (SaveToFile_last_writer fresh_machine station_A station_A_restarted
           (u "/var/run/openhtf") eq_refl).
Defined.

(** X4. A station id that starts with a slash makes [SaveToFile] ignore
    the directory: the file is written at the station id itself, whatever
    directory is given. *)
Theorem SaveToFile_absolute_station_id (st : Os.state) (self : RunData)
    (directory name : str) :
  station_id self = PStr name -> startswith name [Os.sep] = true ->
  SaveToFile self directory st = SaveToFile self [] st /\
  (forall filename st', SaveToFile self directory st = (Ok filename, st') -> filename = name).
Proof.
  intros Hid Habs.
  assert (forall d, Os.path_join d name = name) as Hjoin.
  { intros d. unfold Os.path_join. by rewrite Habs. }
  assert (forall d, SaveToFile self d st
                    = (name' ← Os.ret name; runfile ← Os.open_w name';
                       Os.write runfile (AsJSON self);; Os.ret name') st) as Hsave.
  { intros d. unfold SaveToFile. by rewrite Hid, Hjoin. }
  split; [by rewrite !Hsave|].
  intros filename st'. rewrite Hsave. io_unfold.
  destruct (Os.open_w name st) as [[k|e] st1]; [|done].
  destruct (Os.write k (AsJSON self) st1) as [[[]|e] st2]; [|done]. by intros [= <- _].
Qed.

Lemma SaveToFile_absolute_station_id_witness :
  SaveToFile rooted_station
             (u "/var/run/openhtf") run_machine
  = SaveToFile rooted_station
               [] run_machine.
Proof.
  exact (proj1 (SaveToFile_absolute_station_id run_machine rooted_station (u "/var/run/openhtf")
                  (u "/run/station-A") eq_refl eq_refl)).
Defined.

(** X5. Reading does not write: [FromFile], [IsAlive] and
    [EnumerateRunDirectory] leave the machine exactly as it was, whether
    they return or raise. No reader deletes, creates or changes a file. *)
Theorem readers_change_nothing (st : Os.state) (self : RunData) (path : str) :
  snd (FromFile path st) = st /\
  snd (IsAlive self st) = st /\
  snd (EnumerateRunDirectory path st) = st.
Proof.
  split; [apply FromFile_state|]. split.
  - unfold IsAlive, Os.try_except_else, Os.kill, Os.ret.
    repeat case_match; simplify_eq; done.
  - unfold EnumerateRunDirectory, Os.listdir. io_unfold.
    destruct (Os.node_at st path) as [[content|entries]|]; [done| |done].
    rewrite from_files_decode_all. by destruct (decode_all st _).
Qed.

(** ** Reading *)


Lemma RunData_new_Ok (decoded : pyval) (record : RunData) :
  RunData_new decoded = Ok record <->
  exists kwargs,
    decoded = PDict kwargs /\
    (forall k, k ∈ dict_keys kwargs -> k ∈ _fields) /\
    dict_get kwargs (u "station_id") = Some (station_id record) /\
    dict_get kwargs (u "script_name") = Some (script_name record) /\
    dict_get kwargs (u "http_host") = Some (http_host record) /\
    dict_get kwargs (u "http_port") = Some (http_port record) /\
    dict_get kwargs (u "pid") = Some (pid record).
Proof.
  split.
  - destruct decoded as [| | | | | |kwargs]; try done. unfold RunData_new.
    destruct (forallb _ _) eqn:Hall; [|done].
    destruct (dict_get kwargs (u "station_id")) as [a|] eqn:Ha; [|done].
    destruct (dict_get kwargs (u "script_name")) as [b|] eqn:Hb; [|done].
    destruct (dict_get kwargs (u "http_host")) as [c|] eqn:Hc; [|done].
    destruct (dict_get kwargs (u "http_port")) as [d|] eqn:Hd; [|done].
    destruct (dict_get kwargs (u "pid")) as [e|] eqn:He; [|done].
    intros [= <-]. exists kwargs. split; [done|]. split; [|by repeat split].
    intros k Hk. rewrite forallb_forall in Hall. by apply is_field, Hall, list_elem_of_In.
  - intros (kwargs & -> & Hkeys & Ha & Hb & Hc & Hd & He). unfold RunData_new.
    rewrite Ha, Hb, Hc, Hd, He.
    replace (forallb _ _) with true; [by destruct record|].
    symmetry. apply forallb_forall. intros k Hk%list_elem_of_In. by apply is_field, Hkeys.
Qed.

(** X6. [FromFile] returns a record exactly when the path names a regular
    file whose content is JSON text for an object, every key of the
    object names a field, and every field has a value; each field of the
    record is then the value under its name. No value is converted or
    checked, and the machine is left as it was. *)
Theorem FromFile_returns (st st' : Os.state) (filename : str) (record : RunData) :
  FromFile filename st = (Ok record, st') <->
  st' = st /\
  exists content kwargs,
    Os.node_at st filename = Some (Os.File content) /\
    Json.loads content = Ok (PDict kwargs) /\
    (forall k, k ∈ dict_keys kwargs -> k ∈ _fields) /\
    dict_get kwargs (u "station_id") = Some (station_id record) /\
    dict_get kwargs (u "script_name") = Some (script_name record) /\
    dict_get kwargs (u "http_host") = Some (http_host record) /\
    dict_get kwargs (u "http_port") = Some (http_port record) /\
    dict_get kwargs (u "pid") = Some (pid record).
Proof.
  split.
  - intros Hread. pose proof (FromFile_state st filename) as Hst.
    rewrite Hread in Hst. simpl in Hst. subst st'. split; [done|].
    destruct (Os.node_at st filename) as [[content|entries]|] eqn:Hnode.
    + rewrite (FromFile_regular _ _ _ Hnode) in Hread.
      destruct (Json.loads content) as [decoded|e] eqn:Hloads; [|done].
      injection Hread as Hnew. apply RunData_new_Ok in Hnew as (kwargs & -> & Hrest).
      by exists content, kwargs.
    + unfold FromFile, Os.read_text in Hread. io_unfold. by rewrite Hnode in Hread.
    + unfold FromFile, Os.read_text in Hread. io_unfold. by rewrite Hnode in Hread.
  - intros (-> & content & kwargs & Hnode & Hloads & Hrest).
    rewrite (FromFile_regular _ _ _ Hnode), Hloads. f_equal.
    apply RunData_new_Ok. by exists kwargs.
Qed.






Lemma FromFile_returns_witness :
  FromFile (u "/run/station-B") run_machine = (Ok station_B, run_machine).
Proof.
  apply (proj2 (FromFile_returns run_machine run_machine (u "/run/station-B") station_B)).
  split; [reflexivity|].
  exists (jtext "{'pid': 1, 'http_port': 8081, 'station_id': 'station-B', 'http_host': 'localhost', 'script_name': 'b.py'}"),
         [(u "pid", PInt 1); (u "http_port", PInt 8081); (u "station_id", PStr (u "station-B"));
          (u "http_host", PStr (u "localhost")); (u "script_name", PStr (u "b.py"))].
  split; [reflexivity|]. split; [reflexivity|]. split; [|repeat split; reflexivity].
  intros k Hk. unfold dict_keys, _fields in *. simpl in Hk.
  repeat (apply elem_of_cons in Hk as [->|Hk]; [in_list|]). by apply elem_of_nil in Hk.
Defined.


(** X9. Different records give different files: for two records with the
    documented field types, equal encodings mean equal records. *)
Theorem AsJSON_injective (a b : RunData) :
  typed_record a = true -> typed_record b = true ->
  AsJSON a = AsJSON b -> a = b.
Proof.
  intros Ha Hb Htext.
  pose proof (loads_AsJSON_typed a Ha) as Hla. pose proof (loads_AsJSON_typed b Hb) as Hlb.
  rewrite Htext, Hlb in Hla. destruct a, b. simpl in Hla. by injection Hla as -> -> -> -> ->.
Qed.

Lemma AsJSON_injective_witness : AsJSON station_A <> AsJSON station_A_restarted.
Proof.
  intros Htext.
  pose proof (AsJSON_injective station_A station_A_restarted eq_refl eq_refl Htext) as Heq.
  discriminate Heq.
Defined.

(** X10. [IsAlive] catches [OSError] and nothing else: when the [pid] of
    the record is not an integer, the [TypeError] of [os.kill] reaches the
    caller, and so does its [OverflowError] for an integer outside the
    range of [pid_t]. The machine is not probed. *)
Theorem IsAlive_raises (st : Os.state) (self : RunData) :
  (forall p, pid self = PInt p -> Os.fits_pid_t p = false ->
             IsAlive self st = (Raise OverflowError, st)) /\
  ((forall p, pid self <> PInt p) -> (forall b, pid self <> PBool b) ->
   IsAlive self st = (Raise TypeError, st)).
Proof.
  unfold IsAlive, Os.try_except_else, Os.kill. split.
  - by intros p -> ->.
  - intros Hint Hbool. destruct (pid self) as [|b|p| | | |]; try done.
    + by destruct (Hbool b).
    + by destruct (Hint p).
Qed.

Lemma IsAlive_raises_witness :
  IsAlive far_station run_machine = (Raise OverflowError, run_machine) /\
  IsAlive loose_station run_machine = (Raise TypeError, run_machine).
Proof.
  split.
  - exact (proj1 (IsAlive_raises run_machine far_station) (2 ^ 31)%Z eq_refl eq_refl).
  - apply (proj2 (IsAlive_raises run_machine loose_station)); intros ? H; discriminate H.
Defined.

(** *** The characters of a run file *)

Lemma hexdigit_printable (d : N) : (d < 16)%N -> printable (hexdigit d) = true.
Proof.
  intros Hd. destruct d as [|p]; [done|].
  do 4 (destruct p as [p|p|]; try done); lia.
Qed.

Lemma u_escape_printable (n : N) : forallb printable (u_escape n) = true.
Proof.
  unfold u_escape, hex4. cbn [forallb].
  rewrite !hexdigit_printable by (apply N.mod_lt; done). done.
Qed.

Lemma escape_char_printable (c : N) : forallb printable (escape_char c) = true.
Proof.
  unfold escape_char.
  repeat match goal with
         | |- context [(c =? ?k)%N] => destruct (c =? k)%N; [done|]
         end.
  destruct ((32 <=? c)%N && (c <=? 126)%N) eqn:Hc; [by cbn [forallb]; unfold printable; rewrite Hc|].
  destruct (c <? 0x10000)%N; [apply u_escape_printable|].
  cbv zeta. rewrite forallb_app, !u_escape_printable. done.
Qed.

Lemma escape_body_printable (s : str) : forallb printable (escape_body s) = true.
Proof.
  induction s as [|c s IH]; [done|].
  unfold escape_body. cbn [flat_map]. rewrite forallb_app, escape_char_printable. exact IH.
Qed.

Lemma encode_basestring_ascii_printable (s : str) :
  forallb printable (encode_basestring_ascii s) = true.
Proof.
  unfold encode_basestring_ascii. cbn [forallb].
  rewrite forallb_app, escape_body_printable. done.
Qed.

Lemma repr_int_printable (z : Z) : forallb printable (repr_int z) = true.
Proof.
  assert (forall n, forallb printable (digits n) = true) as Hdigits.
  { intros n. destruct (digits_decimal n) as [Hd _ _]. apply forallb_forall.
    intros c Hc%list_elem_of_In. rewrite Forall_forall in Hd.
    apply Hd, is_digit_spec in Hc. unfold printable.
    apply andb_true_iff; split; apply N.leb_le; lia. }
  unfold repr_int. destruct (z <? 0)%Z; [cbn [forallb]|]; by rewrite Hdigits.
Qed.

Lemma line_breaks_app (a b : str) : line_breaks (a ++ b) = line_breaks a + line_breaks b.
Proof. unfold line_breaks. by rewrite List.filter_app, length_app. Qed.

Lemma line_breaks_printable (s : str) : forallb printable s = true -> line_breaks s = 0.
Proof.
  unfold line_breaks. induction s as [|c s IH]; [done|]. cbn [forallb List.filter].
  intros [Hc Hs]%andb_true_iff. specialize (IH Hs).
  destruct (N.eqb_spec c newline) as [->|_]; [done|exact IH].
Qed.

Lemma line_breaks_cons (c : N) (s : str) :
  line_breaks (c :: s) = (if (c =? newline)%N then 1 else 0) + line_breaks s.
Proof. unfold line_breaks. cbn [List.filter]. by destruct (c =? newline)%N. Qed.

Lemma printable_plain (s : str) : forallb printable s = true -> forallb plain s = true.
Proof.
  intros Hs. apply forallb_forall. intros c Hc. eapply forallb_forall in Hs; [|done].
  unfold plain. by rewrite Hs, orb_true_r.
Qed.

(** X11. The run file of a record with the documented field types is
    plain ASCII with a fixed shape: every character is printable ASCII or
    a line break, and there are exactly six line breaks, whatever the
    strings hold. Line breaks, quotes and characters outside ASCII in a
    field are written as escapes. *)
Theorem AsJSON_plain_text (self : RunData) :
  typed_record self = true ->
  forallb plain (AsJSON self) = true /\ line_breaks (AsJSON self) = 6.
Proof.
  intros (sid & sn & hh & port & p & -> & _)%typed_record_inv.
  rewrite AsJSON_members. cbn [station_id script_name http_host http_port pid].
  change (encode_field (PStr ?s)) with (encode_basestring_ascii s).
  change (encode_field (PInt ?z)) with (repr_int z).
  unfold member, nl_indent. split.
  - repeat (rewrite ?forallb_app; cbn [forallb app u map list_ascii_of_string]).
    rewrite !(printable_plain _ (escape_body_printable _)).
    rewrite !(printable_plain _ (encode_basestring_ascii_printable _)).
    rewrite !(printable_plain _ (repr_int_printable _)). reflexivity.
  - repeat (rewrite ?line_breaks_app, ?line_breaks_cons; cbn [app u map list_ascii_of_string]).
    rewrite !(line_breaks_printable _ (escape_body_printable _)).
    rewrite !(line_breaks_printable _ (encode_basestring_ascii_printable _)).
    rewrite !(line_breaks_printable _ (repr_int_printable _)). reflexivity.
Qed.

Lemma AsJSON_plain_text_witness :
  forallb plain (AsJSON station_A) = true /\ line_breaks (AsJSON station_A) = 6.
Proof. exact (AsJSON_plain_text station_A eq_refl). Defined.

(** *** Paths *)






(** *** Publishing and scanning *)





